(** * habr-parser: the incremental scraper of [main.py]

    A shallow embedding of [main.py] and the properties of its two HTML
    extractors, of its JSON store and of its driver loop.

    - Python [str] values are lists of Unicode code points, so that
      [str.strip] removes exactly the characters Python calls whitespace.
    - A parsed page is a tree of elements, text fragments and comments; the
      two parsers ([lxml.html.fromstring], [BeautifulSoup(_, "html.parser")])
      are libraries and enter as functions from markup to such a tree.
    - The driver runs in a small state-and-exception monad over a world that
      holds the store file, the number of requests sent and the trace of
      observable events (requests, console lines, delays, file writes). *)

From Stdlib Require Import ZArith List Ascii String Bool Lia.
From stdpp Require Import base decidable option list countable gmap.
Import ListNotations.

Local Open Scope Z_scope.
#[local] Set Warnings "-register-all".

(** ** Python strings *)

Module PyStr.

(** A code point. *)
Abbreviation char := N.

(** A Python [str]. *)
Abbreviation pstr := (list N).

(** An ASCII literal as a [str]. *)
Definition str (s : string) : pstr :=
  List.map N_of_ascii (list_ascii_of_string s).

(** [str.isspace] on one character, which is also the set [str.strip]
    removes: the characters whose bidirectional class is WS, B or S or whose
    category is Zs. *)
Definition isspace (c : char) : bool :=
  ((9 <=? c) && (c <=? 13) || (28 <=? c) && (c <=? 32)
   || (c =? 133) || (c =? 160) || (c =? 5760)
   || (8192 <=? c) && (c <=? 8202)
   || (c =? 8232) || (c =? 8233) || (c =? 8239) || (c =? 8287)
   || (c =? 12288))%N.

Fixpoint lstrip (s : pstr) : pstr :=
  match s with
  | c :: s' => if isspace c then lstrip s' else s
  | [] => []
  end.

Definition rstrip (s : pstr) : pstr := rev (lstrip (rev s)).

(** [s.strip()] *)
Definition strip (s : pstr) : pstr := rstrip (lstrip s).

(** Truth value of a [str]: the empty string is false. *)
Definition truthy (s : pstr) : bool :=
  match s with [] => false | _ :: _ => true end.

(** [s.startswith(p)] *)
Fixpoint startswith (p s : pstr) : bool :=
  match p, s with
  | [], _ => true
  | _ :: _, [] => false
  | a :: p', b :: s' => (a =? b)%N && startswith p' s'
  end.

(** [p in s] on strings: [p] occurs in [s] as a contiguous substring. *)
Fixpoint contains (p s : pstr) : bool :=
  startswith p s ||
  match s with
  | [] => false
  | _ :: s' => contains p s'
  end.

(** The string of one line feed. *)
Definition NEWLINE : pstr := [10%N].

(** [sep.join(parts)] *)
Fixpoint join (sep : pstr) (parts : list pstr) : pstr :=
  match parts with
  | [] => []
  | [p] => p
  | p :: rest => p ++ sep ++ join sep rest
  end.

(** Splitting on runs of whitespace, as [re.findall(r"\S+", s)] does. *)
Fixpoint split_ws_aux (cur : pstr) (s : pstr) : list pstr :=
  match s with
  | [] => match cur with [] => [] | _ => [rev cur] end
  | c :: s' =>
      if isspace c
      then match cur with
           | [] => split_ws_aux [] s'
           | _ => rev cur :: split_ws_aux [] s'
           end
      else split_ws_aux (c :: cur) s'
  end.

Definition split_ws (s : pstr) : list pstr := split_ws_aux [] s.

Definition eqb (a b : pstr) : bool := bool_decide (a = b).

(** A surrogate code point, U+D800 to U+DFFF. A [str] may hold one (the
    JSON escape [\ud83d] loads as one); the UTF-8 codec refuses it. *)
Definition is_surrogate (c : char) : bool :=
  ((55296 <=? c) && (c <=? 57343))%N.

(** [s.encode("utf-8")] succeeds. *)
Definition encodable (s : pstr) : bool :=
  forallb (fun c => negb (is_surrogate c)) s.

End PyStr.
Import PyStr.

(** ** Parsed pages *)

(** A node of a parsed page. For lxml, [Text] is a text node and [Comment] a
    comment or processing instruction. For BeautifulSoup, [Text] is a
    [NavigableString] that [get_text] reads and [Comment] any string of
    another class (comments, declarations, script and style contents), which
    [get_text] leaves out. [attrs] is the element's attribute dictionary as
    the parser built it, an association list read by first match. *)
Inductive node : Type :=
| Text (s : pstr)
| Comment (s : pstr)
| Element (tag : pstr) (attrs : list (pstr * pstr)) (children : list node).

Module Dom.

Definition is_element (n : node) : bool :=
  match n with Element _ _ _ => true | _ => false end.

Definition tag_of (n : node) : pstr :=
  match n with Element t _ _ => t | _ => [] end.

Definition children_of (n : node) : list node :=
  match n with Element _ _ cs => cs | _ => [] end.

(** [el.get(name)]: the value of the first attribute of that name. *)
Fixpoint lookup_attr (name : pstr) (attrs : list (pstr * pstr)) : option pstr :=
  match attrs with
  | [] => None
  | (k, v) :: rest => if PyStr.eqb k name then Some v else lookup_attr name rest
  end.

Definition get (name : pstr) (n : node) : option pstr :=
  match n with
  | Element _ attrs _ => lookup_attr name attrs
  | _ => None
  end.

(** The node and everything below it, in document order. *)
Fixpoint subtree (n : node) : list node :=
  n :: match n with
       | Element _ _ cs => List.flat_map subtree cs
       | _ => []
       end.

(** Everything strictly below the node, in document order. *)
Definition descendants (n : node) : list node :=
  List.flat_map subtree (children_of n).

(** The text fragments below (or at) a node, in document order. *)
Fixpoint strings (n : node) : list pstr :=
  match n with
  | Text s => [s]
  | Comment _ => []
  | Element _ _ cs => List.flat_map strings cs
  end.

End Dom.

(** ** lxml: the listing page *)

Module Lxml.
Import Dom.

(** [el.text_content()]: the XPath string value, all text below the element
    in document order. *)
Definition text_content (n : node) : pstr := List.concat (strings n).

(** The elements selected below [n] by [//article//h2/a], in document order.
    [in_article]: a proper ancestor of [n] is an [article];
    [under_h2]: the parent of [n] is an [h2] that has such an ancestor. *)
Fixpoint walk (in_article under_h2 : bool) (n : node) : list node :=
  match n with
  | Element t _ cs =>
      (if under_h2 && PyStr.eqb t (str "a") then [n] else [])
      ++ List.flat_map
           (walk (in_article || PyStr.eqb t (str "article"))
                 (in_article && PyStr.eqb t (str "h2")))
           cs
  | _ => []
  end.

(** [tree.xpath("//article//h2/a")] on the document whose root element is
    [root]: an absolute path, evaluated from the document node. *)
Definition xpath_article_h2_a (root : node) : list node :=
  walk false false root.

End Lxml.

(** ** BeautifulSoup: the article page *)

Module Soup.
Import Dom.

(** [el.get_text(strip=True)]: every text fragment below the element is
    stripped, the empty ones are dropped, and the rest are joined with the
    empty separator. *)
Definition get_text_strip (n : node) : pstr :=
  List.concat (List.filter truthy (List.map strip (strings n))).

(** [el.find_all([name, ...])]: the elements below [el] with one of the
    names, in document order. *)
Definition find_all (names : list pstr) (n : node) : list node :=
  List.filter
    (fun d => is_element d && existsb (PyStr.eqb (tag_of d)) names)
    (descendants n).

(** The value soupsieve matches an attribute selector against: the tokens
    of the multi-valued [class] attribute joined by one space, any other
    attribute as it is. *)
Definition attr_value (name : pstr) (n : node) : option pstr :=
  match get name n with
  | Some v =>
      Some (if PyStr.eqb name (str "class")
            then join (str " ") (split_ws v) else v)
  | None => None
  end.

(** The selectors of the program. *)
Inductive selector : Type :=
| TagClass (tag cls : pstr)            (* tag.cls *)
| TagAttrEq (tag attr value : pstr)    (* tag[attr='value'] *)
| TagAttrSub (tag attr value : pstr).  (* tag[attr*='value'] *)

(** soupsieve compiles [[attr='v']] to the pattern [^v$] and applies
    [re.match]: the value is [v], or [v] followed by one line feed. *)
Definition attr_equals (value v : pstr) : bool :=
  PyStr.eqb v value || PyStr.eqb v (value ++ [10%N]).

Definition matches (sel : selector) (n : node) : bool :=
  match n with
  | Element t _ _ =>
      match sel with
      | TagClass tag cls =>
          PyStr.eqb t tag &&
          match get (str "class") n with
          | Some v => existsb (PyStr.eqb cls) (split_ws v)
          | None => false
          end
      | TagAttrEq tag attr value =>
          PyStr.eqb t tag &&
          match attr_value attr n with
          | Some v => attr_equals value v
          | None => false
          end
      | TagAttrSub tag attr value =>
          PyStr.eqb t tag &&
          match attr_value attr n with
          | Some v => contains value v
          | None => false
          end
      end
  | _ => false
  end.

(** [soup.select(sel)]: the matching elements below the document object, in
    document order. *)
Definition select (sel : selector) (soup : node) : list node :=
  List.filter (matches sel) (descendants soup).

(** [soup.select_one(sel)]: the first of them, or [None]. *)
Definition select_one (sel : selector) (soup : node) : option node :=
  List.head (select sel soup).

(** Truth value of a [Tag]: [Tag.__bool__] answers [True] whatever the tag
    contains. *)
Definition tag_truthy (t : node) : bool := true.

(** [a or b] on two results of [select_one]. *)
Definition py_or (a b : option node) : option node :=
  match a with
  | Some t => if tag_truthy t then a else b
  | None => b
  end.

End Soup.

(** ** Data model *)

(** [{"title": ..., "url": ...}], an entry of the listing. *)
Record ArticleStub : Type := { title : pstr; url : pstr }.

(** [{"text": ..., "likes": ..., "comments": ...}], what the article page
    gives. *)
Record ArticleData : Type := { text : pstr; likes : pstr; comments : pstr }.

(** The persisted record of one article. *)
Record ArticleRecord : Type := {
  rec_title : pstr;
  rec_url : pstr;
  rec_text : pstr;
  rec_likes : pstr;
  rec_comments : pstr
}.

Definition HABR_URL : pstr := str "https://habr.com/ru/all/".

(** The origin [parse_main_page] puts before a relative link. *)
Definition HABR_ORIGIN : pstr := str "https://habr.com".

(** ** The extractors, on parsed pages *)

Module Extract.
Import Dom.

(** [x or ''] on the result of [a.get(...)]: the empty string for [None]. *)
Definition or_empty (x : option pstr) : pstr :=
  match x with
  | Some v => if truthy v then v else []
  | None => []
  end.

(** One pass of the loop of [parse_main_page] over the anchor [a]. *)
Definition listing_step (results : list ArticleStub) (a : node)
  : list ArticleStub :=
  let title := strip (or_empty (Some (Lxml.text_content a))) in
  let href := or_empty (get (str "href") a) in
  let href := if startswith (str "/") href then HABR_ORIGIN ++ href else href in
  if truthy title && truthy href
  then results ++ [{| title := title; url := href |}]
  else results.

(** [parse_main_page] after [html.fromstring]: the loop over the nodes the
    path selects. *)
Definition parse_listing (tree : node) : list ArticleStub :=
  let nodes := Lxml.xpath_article_h2_a tree in
  fold_left listing_step nodes [].

Definition BODY : Soup.selector :=
  Soup.TagClass (str "div") (str "article-formatted-body").
Definition LIKES_PRIMARY : Soup.selector :=
  Soup.TagAttrEq (str "span") (str "data-test-id") (str "votes-meter-counter").
Definition LIKES_FALLBACK : Soup.selector :=
  Soup.TagAttrSub (str "span") (str "class") (str "vote").
Definition COMMENTS_PRIMARY : Soup.selector :=
  Soup.TagAttrEq (str "span") (str "data-test-id") (str "comments-counter").
Definition COMMENTS_FALLBACK : Soup.selector :=
  Soup.TagAttrSub (str "span") (str "class") (str "comment").

(** The inner loop of [get_article_data], over the [p] and [li] of one
    container. *)
Definition paragraph_step (paragraphs : list pstr) (p : node) : list pstr :=
  let text := Soup.get_text_strip p in
  if truthy text then paragraphs ++ [text] else paragraphs.

(** The outer loop, over the containers. *)
Definition body_step (paragraphs : list pstr) (div : node) : list pstr :=
  fold_left paragraph_step (Soup.find_all [str "p"; str "li"] div) paragraphs.

(** [tag.get_text(strip=True) if tag else "0"] *)
Definition counter_text (tag : option node) : pstr :=
  match tag with
  | Some t => if Soup.tag_truthy t then Soup.get_text_strip t else str "0"
  | None => str "0"
  end.

(** [get_article_data] after the page is parsed. *)
Definition article_data (soup : node) : ArticleData :=
  let body_divs := Soup.select BODY soup in
  let paragraphs := fold_left body_step body_divs [] in
  let text_full := join NEWLINE paragraphs in
  let likes_tag :=
    Soup.py_or (Soup.select_one LIKES_PRIMARY soup)
               (Soup.select_one LIKES_FALLBACK soup) in
  let likes := counter_text likes_tag in
  let comments_tag :=
    Soup.py_or (Soup.select_one COMMENTS_PRIMARY soup)
               (Soup.select_one COMMENTS_FALLBACK soup) in
  let comments := counter_text comments_tag in
  {| text := text_full; likes := likes; comments := comments |}.

End Extract.

(** ** The world of a run *)

(** What the store file holds: the dump of a list of records, or text that
    [json.load] rejects. *)
Inductive file_content : Type :=
| Json (data : list ArticleRecord)
| Malformed.

(** The exceptions of a run; each is an [Exception]. *)
Inductive exn : Type :=
| JSONDecodeError
| RequestException
| ParserError
| MarkupError
| ValueError
| UnicodeEncodeError.

Inductive message : Type :=
| Skipped (title : pstr)
| Parsing (title : pstr)
| Failed (url : pstr) (e : exn)
| Added (n : nat)
| NothingNew.

(** What a run does that can be seen from outside, in order. *)
Inductive event : Type :=
| Get (url : pstr)
| Print (m : message)
| Sleep (secs : Z)
| Write (data : list ArticleRecord).   (* [open(_, "w")] and [json.dump] *)

Record world : Type := {
  w_file : option file_content;   (* [articles.json]: absent, or its content *)
  w_requests : nat;               (* calls of [session.get] so far *)
  w_trace : list event
}.

Inductive result (A : Type) : Type :=
| Ok (a : A)
| Raise (e : exn).
Arguments Ok {A} a.
Arguments Raise {A} e.

(** A computation: it ends with a value or an exception, and in either case
    with the world it has reached. *)
Definition M (A : Type) : Type := world -> result A * world.

#[global] Instance M_ret : MRet M := fun A a w => (Ok a, w).
#[global] Instance M_bind : MBind M := fun A B f m w =>
  match m w with
  | (Ok a, w') => f a w'
  | (Raise e, w') => (Raise e, w')
  end.

Definition raise {A} (e : exn) : M A := fun w => (Raise e, w).

Definition lift {A} (r : result A) : M A := fun w => (r, w).

(** [try: body except Exception as e: handler(e)] *)
Definition try_except {A} (body : M A) (handler : exn -> M A) : M A :=
  fun w =>
    match body w with
    | (Ok a, w') => (Ok a, w')
    | (Raise e, w') => handler e w'
    end.

Definition emit (e : event) : M unit := fun w =>
  (Ok tt, {| w_file := w_file w; w_requests := w_requests w;
             w_trace := w_trace w ++ [e] |}).

Definition print (m : message) : M unit := emit (Print m).
Definition sleep (secs : Z) : M unit := emit (Sleep secs).

Definition start (file : option file_content) : world :=
  {| w_file := file; w_requests := 0%nat; w_trace := [] |}.

(** ** The program *)

(** Every string of the record can be written to a UTF-8 file. *)
Definition encodable_record (r : ArticleRecord) : bool :=
  encodable (rec_title r) && encodable (rec_url r) && encodable (rec_text r)
  && encodable (rec_likes r) && encodable (rec_comments r).

(** [json.dump(data, f, ensure_ascii=False)] into a UTF-8 file goes
    through: no string of [data] holds a surrogate. *)
Definition saveable (data : list ArticleRecord) : bool :=
  forallb encodable_record data.

(** [l[:n]] on a list. A negative [n] counts from the end. *)
Definition slice_to {A} (l : list A) (n : Z) : list A :=
  if n <? 0
  then take (Z.to_nat (Z.max 0 (Z.of_nat (length l) + n))) l
  else take (Z.to_nat n) l.

Section Program.

(** The network: the body answered to the [k]-th call of [session.get] when
    it asks for [url], or [None] when the call or [raise_for_status]
    raises. The retries of the session happen inside one call. *)
Variable respond : nat -> pstr -> option pstr.

(** [lxml.html.fromstring]: the root element of the parsed document, or
    [None] when lxml raises. *)
Variable fromstring : pstr -> option node.

(** [BeautifulSoup(_, "html.parser")]: the document object, or [None] when
    the parser raises. *)
Variable BeautifulSoup : pstr -> option node.

(** [int] on a command-line argument, [None] for [ValueError]. *)
Variable int : pstr -> option Z.

(** [make_session] builds the client and sends nothing. *)
Definition make_session : M unit := mret tt.

Definition fetch_html (url : pstr) : M pstr := fun w =>
  let w' := {| w_file := w_file w; w_requests := S (w_requests w);
               w_trace := w_trace w ++ [Get url] |} in
  match respond (w_requests w) url with
  | Some body => (Ok body, w')
  | None => (Raise RequestException, w')
  end.

Definition parse_main_page (page_html : pstr) : result (list ArticleStub) :=
  match fromstring page_html with
  | Some tree => Ok (Extract.parse_listing tree)
  | None => Raise ParserError
  end.

Definition get_article_data (article_html : pstr) : result ArticleData :=
  match BeautifulSoup article_html with
  | Some soup => Ok (Extract.article_data soup)
  | None => Raise MarkupError
  end.

Definition load_existing_data : M (list ArticleRecord) := fun w =>
  match w_file w with
  | Some (Json data) => (Ok data, w)
  | Some Malformed => (Raise JSONDecodeError, w)
  | None => (Ok [], w)
  end.

(** [open(JSON_FILE, "w")] empties the file, then [json.dump] writes the
    text piece by piece, the strings as they are ([ensure_ascii=False]).
    A string with a surrogate makes the write raise [UnicodeEncodeError]:
    the [with] closes the file on what was written so far, a cut-off text
    that [json.load] rejects. *)
Definition save_data (data : list ArticleRecord) : M unit := fun w =>
  if saveable data
  then (Ok tt, {| w_file := Some (Json data); w_requests := w_requests w;
                  w_trace := w_trace w ++ [Write data] |})
  else (Raise UnicodeEncodeError,
        {| w_file := Some Malformed; w_requests := w_requests w;
           w_trace := w_trace w ++ [Write data] |}).

(** The body of the [try] for one candidate. *)
Definition process (art : ArticleStub) (new_articles : list ArticleRecord)
  : M (list ArticleRecord) :=
  print (Parsing (title art));;
  article_html ← fetch_html (url art);
  extra_data ← lift (get_article_data article_html);
  let article_data :=
    {| rec_title := title art; rec_url := url art;
       rec_text := text extra_data; rec_likes := likes extra_data;
       rec_comments := comments extra_data |} in
  mret (new_articles ++ [article_data]).

(** The [for] loop of [main]. *)
Fixpoint main_loop (existing_urls : gset pstr) (articles : list ArticleStub)
    (new_articles : list ArticleRecord) : M (list ArticleRecord) :=
  match articles with
  | [] => mret new_articles
  | art :: rest =>
      if bool_decide (url art ∈ existing_urls)
      then
        print (Skipped (title art));;
        main_loop existing_urls rest new_articles
      else
        new_articles ←
          try_except (process art new_articles)
            (fun e => print (Failed (url art) e);; mret new_articles);
        sleep 1;;
        main_loop existing_urls rest new_articles
  end.

(** [main] up to the end of the loop: the loaded store and the buffer of
    new records. *)
Definition main_collect (limit : Z)
  : M (list ArticleRecord * list ArticleRecord) :=
  make_session;;
  existing_data ← load_existing_data;
  let existing_urls : gset pstr := list_to_set (List.map rec_url existing_data) in
  main_html ← fetch_html HABR_URL;
  stubs ← lift (parse_main_page main_html);
  let articles := slice_to stubs limit in
  new_articles ← main_loop existing_urls articles [];
  mret (existing_data, new_articles).

(** The end of [main]: [if new_articles: ... else: ...]. *)
Definition main_save (existing_data new_articles : list ArticleRecord)
  : M unit :=
  match new_articles with
  | _ :: _ =>
      let all_data := existing_data ++ new_articles in
      save_data all_data;;
      print (Added (length new_articles))
  | [] => print NothingNew
  end.

Definition main (limit : Z) : M unit :=
  '(existing_data, new_articles) ← main_collect limit;
  main_save existing_data new_articles.

(** [int(sys.argv[1]) if len(sys.argv) > 1 else 5] *)
Definition cli_limit (argv : list pstr) : result Z :=
  match argv with
  | _ :: arg :: _ =>
      match int arg with
      | Some limit => Ok limit
      | None => Raise ValueError
      end
  | _ => Ok 5
  end.

(** The script: [limit = ...; main(limit)]. *)
Definition script (argv : list pstr) : M unit :=
  limit ← lift (cli_limit argv);
  main limit.

End Program.

(** ** Vocabulary of the properties *)

(** The two counters of an article page. *)
Inductive counter : Type := Likes | Comments.

Definition primary (c : counter) : Soup.selector :=
  match c with
  | Likes => Extract.LIKES_PRIMARY
  | Comments => Extract.COMMENTS_PRIMARY
  end.

Definition fallback (c : counter) : Soup.selector :=
  match c with
  | Likes => Extract.LIKES_FALLBACK
  | Comments => Extract.COMMENTS_FALLBACK
  end.

Definition counter_of (c : counter) (d : ArticleData) : pstr :=
  match c with Likes => likes d | Comments => comments d end.

(** All the text of an element, untrimmed. *)
Definition whole_text (n : node) : pstr := List.concat (Dom.strings n).

(** "A counter is the trimmed text of the element the two-tier search
    finds": the text of the element taken whole and trimmed at its two
    ends. *)
Definition counter_is_trimmed_text (c : counter) (soup : node) : Prop :=
  counter_of c (Extract.article_data soup)
  = match Soup.select_one (primary c) soup,
          Soup.select_one (fallback c) soup with
    | Some t, _ => strip (whole_text t)
    | None, Some t => strip (whole_text t)
    | None, None => str "0"
    end.

(** "The text is the trimmed texts of the paragraphs and list items": each
    element's text taken whole and trimmed at its two ends. *)
Definition text_is_trimmed_element_texts (soup : node) : Prop :=
  text (Extract.article_data soup)
  = join NEWLINE
      (List.filter truthy
         (List.map (fun e => strip (whole_text e))
            (List.flat_map (Soup.find_all [str "p"; str "li"])
               (Soup.select Extract.BODY soup)))).

(** The anchors of the listing from which a stub comes out. *)
Definition emits (a : node) : bool :=
  truthy (strip (Lxml.text_content a))
  && truthy (Extract.or_empty (Dom.get (str "href") a)).

(** How a stub relates to the anchor it comes from. *)
Definition stub_of_anchor (a : node) (s : ArticleStub) : Prop :=
  exists href,
    Dom.get (str "href") a = Some href /\
    title s = strip (Lxml.text_content a) /\
    (startswith (str "/") href = true -> url s = HABR_ORIGIN ++ href) /\
    (startswith (str "/") href = false -> url s = href).

(** "No stub has a title or a link that is empty once trimmed." *)
Definition no_blank_stub (tree : node) : Prop :=
  Forall (fun s => truthy (strip (title s)) = true
                   /\ truthy (strip (url s)) = true)
         (Extract.parse_listing tree).

(** The requests of a trace, in order. *)
Definition gets (tr : list event) : list pstr :=
  omap (fun e => match e with Get u => Some u | _ => None end) tr.


(** The file writes of a trace. *)
Definition writes (tr : list event) : list (list ArticleRecord) :=
  omap (fun e => match e with Write d => Some d | _ => None end) tr.

(** The titles of the candidates the loop took up, in order: each candidate
    is announced once, as skipped or as being parsed. *)
Definition considered (tr : list event) : list pstr :=
  omap (fun e => match e with
                 | Print (Skipped t) | Print (Parsing t) => Some t
                 | _ => None
                 end) tr.

(** The announcements of candidates and the delays of a trace. *)
Definition pace (tr : list event) : list event :=
  List.filter (fun e => match e with
                        | Print (Skipped _) | Print (Parsing _) | Sleep _ => true
                        | _ => false
                        end) tr.

(** What the store holds, as the next run would load it. *)
Definition stored (w : world) : list ArticleRecord :=
  match w_file w with
  | Some (Json data) => data
  | _ => []
  end.

Definition is_known (existing_urls : gset pstr) (art : ArticleStub) : bool :=
  bool_decide (url art ∈ existing_urls).

Definition known_urls (existing : list ArticleRecord) : gset pstr :=
  list_to_set (List.map rec_url existing).

(** [w'] is [w] after [n] more requests and the events [tr], the store file
    untouched. *)
Definition reaches (w w' : world) (n : nat) (tr : list event) : Prop :=
  w_file w' = w_file w /\
  w_requests w' = (n + w_requests w)%nat /\
  w_trace w' = w_trace w ++ tr.

Section Vocabulary.

Variable respond : nat -> pstr -> option pstr.
Variable fromstring : pstr -> option node.
Variable BeautifulSoup : pstr -> option node.

(** The record a candidate yields when it is fetched by request number [k],
    if the request and the parse succeed. *)
Definition build (k : nat) (art : ArticleStub) : option ArticleRecord :=
  match respond k (url art) with
  | Some article_html =>
      match BeautifulSoup article_html with
      | Some soup =>
          let d := Extract.article_data soup in
          Some {| rec_title := title art; rec_url := url art;
                  rec_text := text d; rec_likes := likes d;
                  rec_comments := comments d |}
      | None => None
      end
  | None => None
  end.

(** The records built from the candidates to fetch, the first of them by
    request number [k]. *)
Fixpoint built_from (k : nat) (to_fetch : list ArticleStub)
  : list ArticleRecord :=
  match to_fetch with
  | [] => []
  | art :: rest =>
      match build k art with
      | Some r => r :: built_from (S k) rest
      | None => built_from (S k) rest
      end
  end.

(** "The driver takes up the first [N] stubs of the listing, in order." *)
Definition first_stubs_considered (file : option file_content) (N : Z) : Prop :=
  forall main_html tree,
    respond 0%nat HABR_URL = Some main_html ->
    fromstring main_html = Some tree ->
    considered
      (w_trace (snd (main respond fromstring BeautifulSoup N (start file))))
    = List.map title (firstn (Z.to_nat N) (Extract.parse_listing tree)).

(** "A delay follows every candidate, skipped or not." *)
Definition delay_after_every_candidate (existing_urls : gset pstr)
    (articles : list ArticleStub) : Prop :=
  let w := snd (main_loop respond BeautifulSoup existing_urls articles []
                  (start None)) in
  pace (w_trace w)
  = List.flat_map
      (fun art =>
         [Print (if is_known existing_urls art
                 then Skipped (title art) else Parsing (title art));
          Sleep 1])
      articles.

End Vocabulary.

(** ** Sample pages and a sample network *)

Module Sample.

Local Open Scope string_scope.

Definition el (tag : string) (attrs : list (string * string))
    (children : list node) : node :=
  Element (str tag) (List.map (fun kv => (str (fst kv), str (snd kv))) attrs)
          children.

Definition txt (s : string) : node := Text (str s).

Definition entry (href title : string) : node :=
  el "article" [] [el "h2" [] [el "a" [("href", href)] [txt title]]].

(** A listing of three articles, the first with a relative link. *)
Definition listing : node :=
  el "html" []
    [el "body" []
       [entry "/ru/articles/1/" " A ";
        entry "https://habr.com/ru/articles/3/" "C";
        entry "/ru/articles/4/" "D"]].

(** A listing whose only anchor has a link made of one space. *)
Definition blank_href_listing : node :=
  el "html" [] [el "body" [] [entry " " "T"]].

(** An article page: a body of two paragraphs and a list, a votes counter
    found through its class, an empty comments counter. *)
Definition article : node :=
  el "[document]" []
    [el "div" [("class", "tm-body article-formatted-body")]
       [el "p" [] [txt " one "; el "b" [] [txt "two"]];
        el "p" [] [txt "  "];
        el "ul" [] [el "li" [] [txt "three"]]];
     el "span" [("class", "tm-votes-meter__value")] [txt " +12 "];
     el "span" [("data-test-id", "comments-counter")] [txt " "]].

(** An article page whose votes counter is made of two fragments. *)
Definition split_counter_article : node :=
  el "[document]" []
    [el "span" [("data-test-id", "votes-meter-counter")]
       [el "span" [] [txt "+"]; txt " "; el "span" [] [txt "12"]]].

(** An article page without counters. *)
Definition bare_article : node :=
  el "[document]" [] [el "p" [] [txt "outside"]].

Definition url_A : pstr := str "https://habr.com/ru/articles/1/".
Definition url_B : pstr := str "https://habr.com/ru/articles/2/".
Definition url_C : pstr := str "https://habr.com/ru/articles/3/".
Definition url_D : pstr := str "https://habr.com/ru/articles/4/".

Definition old (title : string) (url : pstr) : ArticleRecord :=
  {| rec_title := str title; rec_url := url; rec_text := str "old";
     rec_likes := str "1"; rec_comments := str "2" |}.

(** A store that knows A and B. *)
Definition store_AB : list ArticleRecord := [old "A" url_A; old "B" url_B].

(** A network that serves the listing and every article. *)
Definition respond (k : nat) (u : pstr) : option pstr :=
  if PyStr.eqb u HABR_URL then Some (str "listing") else Some (str "article").

(** A network on which every article request fails. *)
Definition respond_listing_only (k : nat) (u : pstr) : option pstr :=
  if PyStr.eqb u HABR_URL then Some (str "listing") else None.

Definition fromstring (markup : pstr) : option node :=
  if PyStr.eqb markup (str "listing") then Some listing else None.

Definition BeautifulSoup (markup : pstr) : option node :=
  if PyStr.eqb markup (str "article") then Some article else None.

(** [int] on plain decimal numerals with an optional minus sign. *)
Fixpoint digits (acc : Z) (s : pstr) : option Z :=
  match s with
  | [] => Some acc
  | c :: s' =>
      if ((48 <=? c) && (c <=? 57))%N
      then digits (10 * acc + (Z.of_N c - 48)) s'
      else None
  end.

Definition int (s : pstr) : option Z :=
  match s with
  | [] => None
  | [45%N] => None
  | 45%N :: s' => option_map Z.opp (digits 0 s')
  | _ => digits 0 s
  end.

End Sample.

(** ** Further vocabulary: the exact events of a run *)

(** The URLs named by the failure notices of a trace, in order. *)
Definition failures (tr : list event) : list pstr :=
  omap (fun e => match e with Print (Failed u _) => Some u | _ => None end) tr.

(** The delays of a trace, in order. *)
Definition sleeps (tr : list event) : list Z :=
  omap (fun e => match e with Sleep secs => Some secs | _ => None end) tr.

(** The element a counter is read from: the first match of the primary
    selector, or, when the primary selector matches nothing, the first
    match of the fallback selector. *)
Definition counter_source (c : counter) (soup t : node) : Prop :=
  Soup.select_one (primary c) soup = Some t
  \/ (Soup.select_one (primary c) soup = None
      /\ Soup.select_one (fallback c) soup = Some t).

(** The events of one candidate in the loop. A known candidate: the skip
    notice and nothing more. Any other: the announcement, the request, the
    failure notice if there is one, and last the delay of one second. *)
Definition candidate_segment (existing_urls : gset pstr) (art : ArticleStub)
    (seg : list event) : Prop :=
  if is_known existing_urls art
  then seg = [Print (Skipped (title art))]
  else exists notice,
         seg = [Print (Parsing (title art)); Get (url art)]
               ++ notice ++ [Sleep 1]
         /\ (notice = [] \/ exists e, notice = [Print (Failed (url art) e)]).

(** The requests and the delays of a trace, in order. *)
Definition rhythm (tr : list event) : list event :=
  List.filter (fun e => match e with
                        | Get _ | Sleep _ => true
                        | _ => false
                        end) tr.

(** A string without whitespace at either end. *)
Definition tight (s : pstr) : Prop :=
  match s with
  | [] => True
  | c :: _ => isspace c = false /\ isspace (List.last s c) = false
  end.

(** An [a] element. *)
Definition is_anchor (n : node) : bool :=
  Dom.is_element n && PyStr.eqb (Dom.tag_of n) (str "a").

(** An [article] element. *)
Definition is_article (n : node) : bool :=
  Dom.is_element n && PyStr.eqb (Dom.tag_of n) (str "article").

Section Events.

Variable respond : nat -> pstr -> option pstr.
Variable BeautifulSoup : pstr -> option node.

(** The notice printed by the [except] branch for a candidate fetched by
    request number [k], when there is one. *)
Definition failure_events (k : nat) (art : ArticleStub) : list event :=
  match respond k (url art) with
  | None => [Print (Failed (url art) RequestException)]
  | Some article_html =>
      match BeautifulSoup article_html with
      | None => [Print (Failed (url art) MarkupError)]
      | Some _ => []
      end
  end.

(** The events of one candidate that is not known. *)
Definition attempt_events (k : nat) (art : ArticleStub) : list event :=
  [Print (Parsing (title art)); Get (url art)]
  ++ failure_events k art ++ [Sleep 1].

(** The events of the loop over the candidates, the first request of the
    loop being number [k]. *)
Fixpoint loop_events (k : nat) (existing_urls : gset pstr)
    (articles : list ArticleStub) : list event :=
  match articles with
  | [] => []
  | art :: rest =>
      if is_known existing_urls art
      then Print (Skipped (title art)) :: loop_events k existing_urls rest
      else attempt_events k art ++ loop_events (S k) existing_urls rest
  end.

(** The events of the end of [main]. *)
Definition save_events (existing built : list ArticleRecord) : list event :=
  match built with
  | [] => [Print NothingNew]
  | _ :: _ =>
      if saveable (existing ++ built)
      then [Write (existing ++ built); Print (Added (length built))]
      else [Write (existing ++ built)]
  end.

(** How the end of [main] ends. *)
Definition save_result (existing built : list ArticleRecord) : result unit :=
  match built with
  | [] => Ok tt
  | _ :: _ =>
      if saveable (existing ++ built) then Ok tt else Raise UnicodeEncodeError
  end.

(** The store file after the end of [main]. *)
Definition save_file (file : option file_content)
    (existing built : list ArticleRecord) : option file_content :=
  match built with
  | [] => file
  | _ :: _ =>
      Some (if saveable (existing ++ built)
            then Json (existing ++ built) else Malformed)
  end.

(** The candidates to fetch whose request or parse fails, the first of them
    fetched by request number [k]. *)
Fixpoint failed_from (k : nat) (to_fetch : list ArticleStub)
  : list ArticleStub :=
  match to_fetch with
  | [] => []
  | art :: rest =>
      match build respond BeautifulSoup k art with
      | Some _ => failed_from (S k) rest
      | None => art :: failed_from (S k) rest
      end
  end.

End Events.

Section Stated.

Variable respond : nat -> pstr -> option pstr.
Variable fromstring : pstr -> option node.
Variable BeautifulSoup : pstr -> option node.


End Stated.

(** ** Sample outages *)

Module Outage.

(** A network that is down. *)
Definition respond_down (k : nat) (u : pstr) : option pstr := None.

(** A network that serves the listing and fails on article 3 only. *)
Definition respond_but_C (k : nat) (u : pstr) : option pstr :=
  if PyStr.eqb u Sample.url_C then None else Sample.respond k u.

(** An lxml that rejects every page. *)
Definition fromstring_rejects (markup : pstr) : option node := None.

(** A store whose record of B holds a lone surrogate, as the JSON text
    ["\ud83d"] loads. *)
Definition store_surrogate : list ArticleRecord :=
  [{| rec_title := str "B"; rec_url := Sample.url_B;
      rec_text := [55357%N]; rec_likes := str "1"; rec_comments := str "2" |}].

(** A listing without any [article] element. *)
Definition plain_listing : node :=
  Sample.el "html" []
    [Sample.el "body" []
       [Sample.el "h2" [] [Sample.el "a" [("href", "/x")%string] [Sample.txt "X"]]]].

End Outage.

(** * Properties *)

(** ** Trimming *)

Section Strip.

Lemma lstrip_head (s : pstr) :
  match lstrip s with
  | [] => True
  | c :: _ => isspace c = false
  end.
Proof.
  induction s as [|c s IH]; simpl; [exact I|].
  destruct (isspace c) eqn:E; [exact IH | exact E].
Qed.

Lemma lstrip_fixed (c : char) (s : pstr) :
  isspace c = false -> lstrip (c :: s) = c :: s.
Proof. intros E. simpl. now rewrite E. Qed.

Lemma lstrip_snoc (s : pstr) (c : char) :
  isspace c = false -> lstrip (s ++ [c]) = lstrip s ++ [c].
Proof.
  intros E. induction s as [|d s IH]; simpl.
  - now rewrite E.
  - destruct (isspace d); [exact IH | reflexivity].
Qed.

Lemma rstrip_cons (c : char) (s : pstr) :
  isspace c = false -> rstrip (c :: s) = c :: rstrip s.
Proof.
  intros E. unfold rstrip. simpl.
  rewrite lstrip_snoc by exact E.
  now rewrite rev_app_distr.
Qed.

Lemma rstrip_rstrip (s : pstr) : rstrip (rstrip s) = rstrip s.
Proof.
  unfold rstrip. rewrite rev_involutive. f_equal.
  pose proof (lstrip_head (rev s)) as H.
  destruct (lstrip (rev s)) as [|c t]; [reflexivity|].
  now apply lstrip_fixed.
Qed.

(** Trimming twice is trimming once. *)
Lemma strip_strip (s : pstr) : strip (strip s) = strip s.
Proof.
  unfold strip.
  pose proof (lstrip_head s) as H.
  destruct (lstrip s) as [|c t]; [reflexivity|].
  rewrite rstrip_cons by exact H.
  rewrite lstrip_fixed by exact H.
  rewrite rstrip_cons by exact H.
  now rewrite rstrip_rstrip.
Qed.

Lemma lstrip_nil_iff (s : pstr) : lstrip s = [] <-> forallb isspace s = true.
Proof.
  induction s as [|c s IH]; simpl; [tauto|].
  destruct (isspace c); simpl; [exact IH|].
  split; discriminate.
Qed.

Lemma forallb_lstrip (s : pstr) :
  forallb isspace (lstrip s) = forallb isspace s.
Proof.
  induction s as [|c s IH]; simpl; [reflexivity|].
  destruct (isspace c) eqn:E; simpl; [exact IH | now rewrite E].
Qed.

Lemma rev_nil_iff {A} (l : list A) : rev l = [] <-> l = [].
Proof.
  split; intros H; [|now subst].
  apply (f_equal (@rev A)) in H. now rewrite rev_involutive in H.
Qed.

Lemma forallb_isspace_rev (s : pstr) :
  forallb isspace (rev s) = forallb isspace s.
Proof.
  induction s as [|c s IH]; simpl; [reflexivity|].
  rewrite forallb_app, IH. simpl. rewrite andb_true_r. apply andb_comm.
Qed.

(** A string trims to nothing exactly when it is all whitespace. *)
Lemma strip_nil_iff (s : pstr) : strip s = [] <-> forallb isspace s = true.
Proof.
  unfold strip, rstrip.
  rewrite rev_nil_iff, lstrip_nil_iff, forallb_isspace_rev, forallb_lstrip.
  reflexivity.
Qed.

Lemma truthy_false_iff (s : pstr) : truthy s = false <-> s = [].
Proof. destruct s; simpl; split; congruence. Qed.

Lemma truthy_true_iff (s : pstr) : truthy s = true <-> s <> [].
Proof. destruct s; simpl; split; congruence. Qed.

Lemma startswith_slash (s : pstr) :
  startswith (str "/") s = true <-> exists rest, s = 47%N :: rest.
Proof.
  destruct s as [|c s].
  - simpl. split; [discriminate | intros [r H]; discriminate].
  - change (startswith (str "/") (c :: s)) with ((47 =? c)%N && true).
    rewrite andb_true_r, N.eqb_eq. split.
    + intros H. exists s. now subst.
    + intros [r H]. now inversion H.
Qed.

End Strip.

(** ** The listing extractor *)

Section Listing.

Lemma or_empty_some (x : pstr) : Extract.or_empty (Some x) = x.
Proof. destruct x; reflexivity. Qed.

Lemma or_empty_truthy (g : option pstr) :
  truthy (Extract.or_empty g) = true -> g = Some (Extract.or_empty g).
Proof.
  destruct g as [v|]; simpl; [|discriminate].
  destruct (truthy v); [reflexivity | discriminate].
Qed.

(** The link after the rewrite is empty exactly when the attribute is. *)
Lemma rewritten_truthy (href : pstr) :
  truthy (if startswith (str "/") href then HABR_ORIGIN ++ href else href)
  = truthy href.
Proof.
  destruct (startswith (str "/") href) eqn:E; [|reflexivity].
  apply startswith_slash in E as [rest ->]. reflexivity.
Qed.

(** One pass of the loop: a stub is appended for an anchor with a title and
    a link, nothing happens for any other. *)
Lemma listing_step_cases (results : list ArticleStub) (a : node) :
  (emits a = true /\
   exists s, Extract.listing_step results a = results ++ [s] /\
             stub_of_anchor a s /\
             truthy (strip (title s)) = true /\ truthy (url s) = true)
  \/ (emits a = false /\ Extract.listing_step results a = results).
Proof.
  unfold Extract.listing_step, emits.
  rewrite or_empty_some, rewritten_truthy.
  destruct (truthy (strip (Lxml.text_content a))
            && truthy (Extract.or_empty (Dom.get (str "href") a))) eqn:E;
    [left | right; split; reflexivity].
  split; [reflexivity|].
  apply andb_prop in E as [Et Eh].
  eexists. split; [reflexivity|].
  unfold stub_of_anchor. cbn [title url].
  rewrite strip_strip, rewritten_truthy.
  repeat split; try assumption.
  exists (Extract.or_empty (Dom.get (str "href") a)).
  split; [now apply or_empty_truthy|].
  split; [reflexivity|].
  split; intros ->; reflexivity.
Qed.

Lemma listing_fold (nodes : list node) (results : list ArticleStub) :
  exists out,
    fold_left Extract.listing_step nodes results = results ++ out /\
    Forall2 stub_of_anchor (List.filter emits nodes) out /\
    Forall (fun s => truthy (strip (title s)) = true /\ truthy (url s) = true)
           out.
Proof.
  revert results. induction nodes as [|a nodes IH]; intros results; simpl.
  - exists []. rewrite app_nil_r. repeat split; constructor.
  - destruct (listing_step_cases results a)
      as [(Ea & s & Es & Hs & Ht) | (Ea & Es)]; rewrite Es, Ea.
    + destruct (IH (results ++ [s])) as (out & Ho & HF & HA).
      exists (s :: out). rewrite Ho, <- app_assoc.
      repeat split; [constructor; assumption | constructor; assumption].
    + apply IH.
Qed.

(** C6. Every stub of the listing comes from one anchor that has a title
    and a link, in the order of the anchors, and its URL is the link put
    after [https://habr.com] when the link begins with [/], the link
    unchanged when it does not. *)
Theorem listing_urls_absolutized (tree : node) :
  Forall2 stub_of_anchor
    (List.filter emits (Lxml.xpath_article_h2_a tree))
    (Extract.parse_listing tree).
Proof.
  unfold Extract.parse_listing.
  destruct (listing_fold (Lxml.xpath_article_h2_a tree) [])
    as (out & Ho & HF & _).
  rewrite Ho. exact HF.
Qed.

(** C7, as the code has it. Every stub of the listing has a title that is
    not empty once trimmed and a link that is not empty; the link is not
    trimmed before the test. *)
Theorem listing_stubs_not_empty (tree : node) :
  Forall (fun s => truthy (strip (title s)) = true /\ truthy (url s) = true)
         (Extract.parse_listing tree).
Proof.
  unfold Extract.parse_listing.
  destruct (listing_fold (Lxml.xpath_article_h2_a tree) [])
    as (out & Ho & _ & HA).
  rewrite Ho. exact HA.
Qed.

(** C7, as stated, fails: an anchor whose link is one space gives a stub
    whose link is empty once trimmed. *)
Lemma blank_href_stub_emitted : ~ no_blank_stub Sample.blank_href_listing.
Proof.
  unfold no_blank_stub. intros H.
  assert (E : Extract.parse_listing Sample.blank_href_listing
              = [{| title := str "T"; url := str " " |}])
    by (vm_compute; reflexivity).
  rewrite E in H. inversion H as [|s l [_ Hu] _]; subst.
  vm_compute in Hu. discriminate.
Qed.

Example listing_sample :
  Extract.parse_listing Sample.listing
  = [{| title := str "A"; url := Sample.url_A |};
     {| title := str "C"; url := Sample.url_C |};
     {| title := str "D"; url := Sample.url_D |}].
Proof. vm_compute. reflexivity. Qed.

End Listing.

(** ** The article extractor *)

Section Article.

Lemma paragraph_fold (ps : list node) (paragraphs : list pstr) :
  fold_left Extract.paragraph_step ps paragraphs
  = paragraphs ++ List.filter truthy (List.map Soup.get_text_strip ps).
Proof.
  revert paragraphs. induction ps as [|p ps IH]; intros paragraphs; simpl.
  - now rewrite app_nil_r.
  - rewrite IH. unfold Extract.paragraph_step.
    destruct (truthy (Soup.get_text_strip p)); [|reflexivity].
    now rewrite <- app_assoc.
Qed.

Lemma body_fold (divs : list node) (paragraphs : list pstr) :
  fold_left Extract.body_step divs paragraphs
  = paragraphs
    ++ List.filter truthy
         (List.map Soup.get_text_strip
            (List.flat_map (Soup.find_all [str "p"; str "li"]) divs)).
Proof.
  revert paragraphs. induction divs as [|d divs IH]; intros paragraphs; simpl.
  - now rewrite app_nil_r.
  - rewrite IH. unfold Extract.body_step. rewrite paragraph_fold.
    rewrite List.map_app, List.filter_app. now rewrite <- app_assoc.
Qed.

(** C5, as the code has it. The text of an article is the texts of the [p]
    and [li] elements below the body containers, taken container by
    container in document order and element by element in document order
    inside a container, the empty ones left out, the rest joined by line
    feeds; the text of an element is its text fragments, each trimmed, put
    together without a separator. *)
Theorem article_text_in_document_order (soup : node) :
  text (Extract.article_data soup)
  = join NEWLINE
      (List.filter truthy
         (List.map Soup.get_text_strip
            (List.flat_map (Soup.find_all [str "p"; str "li"])
               (Soup.select Extract.BODY soup)))).
Proof.
  unfold Extract.article_data. cbn [text].
  now rewrite body_fold.
Qed.

(** [select_one] answers the first match in document order. *)
Lemma head_filter_first {A} (f : A -> bool) (l : list A) (x : A) :
  List.head (List.filter f l) = Some x <->
  exists pre post,
    l = pre ++ x :: post /\ f x = true /\ Forall (fun d => f d = false) pre.
Proof.
  induction l as [|a l IH]; simpl.
  - split; [discriminate|].
    intros (pre & post & H & _). now destruct pre.
  - destruct (f a) eqn:E; simpl.
    + split.
      * intros [= ->]. exists [], l. repeat split; [assumption | constructor].
      * intros (pre & post & H & Hx & Hpre).
        destruct pre as [|b pre]; simpl in H; inversion H; subst; [reflexivity|].
        inversion Hpre; congruence.
    + rewrite IH. split.
      * intros (pre & post & -> & Hx & Hpre).
        exists (a :: pre), post. repeat split; [assumption|].
        now constructor.
      * intros (pre & post & H & Hx & Hpre).
        destruct pre as [|b pre]; simpl in H; inversion H; subst; [congruence|].
        exists pre, post. repeat split; [assumption|].
        now inversion Hpre.
Qed.

Lemma head_filter_none {A} (f : A -> bool) (l : list A) :
  List.head (List.filter f l) = None <-> Forall (fun d => f d = false) l.
Proof.
  induction l as [|a l IH]; simpl.
  - split; [constructor | reflexivity].
  - destruct (f a) eqn:E; simpl.
    + split; [discriminate | intros H; inversion H; congruence].
    + rewrite IH. split; [now constructor | now inversion 1].
Qed.

Lemma select_one_first (sel : Soup.selector) (soup t : node) :
  Soup.select_one sel soup = Some t <->
  exists pre post,
    Dom.descendants soup = pre ++ t :: post /\
    Soup.matches sel t = true /\
    Forall (fun d => Soup.matches sel d = false) pre.
Proof. apply head_filter_first. Qed.

Lemma select_one_none (sel : Soup.selector) (soup : node) :
  Soup.select_one sel soup = None <->
  Forall (fun d => Soup.matches sel d = false) (Dom.descendants soup).
Proof. apply head_filter_none. Qed.

Lemma counter_of_article (c : counter) (soup : node) :
  counter_of c (Extract.article_data soup)
  = Extract.counter_text
      (Soup.py_or (Soup.select_one (primary c) soup)
                  (Soup.select_one (fallback c) soup)).
Proof. destruct c; reflexivity. Qed.

(** C4, as the code has it. A counter is read from the first element the
    primary selector matches; when it matches none, from the first element
    the fallback selector matches; when neither matches, it is ["0"]. What
    is read from the element is its text fragments, each trimmed, put
    together without a separator. *)
Theorem counter_two_tier_fallback (c : counter) (soup : node) :
  counter_of c (Extract.article_data soup)
  = match Soup.select_one (primary c) soup,
          Soup.select_one (fallback c) soup with
    | Some t, _ => Soup.get_text_strip t
    | None, Some t => Soup.get_text_strip t
    | None, None => str "0"
    end.
Proof.
  rewrite counter_of_article.
  destruct (Soup.select_one (primary c) soup) as [t|];
    [reflexivity|].
  destruct (Soup.select_one (fallback c) soup) as [t|]; reflexivity.
Qed.

(** Text that trims to nothing has no fragment that survives trimming. *)
Lemma get_text_strip_blank (t : node) :
  strip (whole_text t) = [] -> Soup.get_text_strip t = [].
Proof.
  unfold whole_text, Soup.get_text_strip.
  rewrite strip_nil_iff.
  induction (Dom.strings t) as [|x l IH]; simpl; [reflexivity|].
  rewrite forallb_app. intros [Hx Hl]%andb_prop.
  apply strip_nil_iff in Hx. rewrite Hx. simpl. now apply IH.
Qed.

(** C10. When the primary selector matches, or matches nothing while the
    fallback selector matches, the counter is the text of the matched
    element, also when that text is empty once trimmed: the counter is then
    the empty string and not ["0"]. The default ["0"] comes when neither
    selector matches, and only then: a counter that reads ["0"] otherwise
    is the text of the matched element. *)
Theorem empty_counter_is_not_default (c : counter) (soup : node) :
  (forall t,
     counter_source c soup t ->
     counter_of c (Extract.article_data soup) = Soup.get_text_strip t /\
     (strip (whole_text t) = [] ->
      counter_of c (Extract.article_data soup) = [] /\
      counter_of c (Extract.article_data soup) <> str "0")) /\
  (Soup.select_one (primary c) soup = None /\
   Soup.select_one (fallback c) soup = None ->
   counter_of c (Extract.article_data soup) = str "0") /\
  (counter_of c (Extract.article_data soup) = str "0" ->
   (Soup.select_one (primary c) soup = None /\
    Soup.select_one (fallback c) soup = None)
   \/ exists t, counter_source c soup t /\ Soup.get_text_strip t = str "0").
Proof.
  rewrite counter_of_article. unfold counter_source.
  destruct (Soup.select_one (primary c) soup) as [p|];
    [|destruct (Soup.select_one (fallback c) soup) as [f|]];
    cbn [Soup.py_or Soup.tag_truthy Extract.counter_text].
  - split; [|split].
    + intros t [[= <-] | [[=] _]]. split; [reflexivity|].
      intros Hblank. rewrite (get_text_strip_blank p Hblank).
      split; [reflexivity | discriminate].
    + intros [[=] _].
    + intros H. right. exists p. split; [now left | exact H].
  - split; [|split].
    + intros t [[=] | [_ [= <-]]]. split; [reflexivity|].
      intros Hblank. rewrite (get_text_strip_blank f Hblank).
      split; [reflexivity | discriminate].
    + intros [_ [=]].
    + intros H. right. exists f. split; [now right | exact H].
  - split; [|split].
    + intros t [[=] | [_ [=]]].
    + reflexivity.
    + intros _. now left.
Qed.

Lemma empty_counter_is_not_default_witness :
  comments (Extract.article_data Sample.article) = [].
Proof.
  refine (proj1 (proj2 (proj1 (empty_counter_is_not_default Comments
                                 Sample.article)
    (Sample.el "span" [("data-test-id", "comments-counter")%string]
               [Sample.txt " "]) _) _)).
  - left. vm_compute. reflexivity.
  - vm_compute. reflexivity.
Defined.

(** [get_text(strip=True)] trims fragment by fragment: the blanks between
    two fragments go too. *)
Example get_text_strip_fragments :
  let p := Sample.el "p" [] [Sample.txt " one "; Sample.el "b" [] [Sample.txt "two"]] in
  Soup.get_text_strip p = str "onetwo" /\ strip (whole_text p) = str "one two".
Proof. vm_compute. split; reflexivity. Qed.

(** On an element with one text fragment the two trimmings agree. *)
Lemma get_text_strip_single (t : node) (s : pstr) :
  Dom.strings t = [s] -> Soup.get_text_strip t = strip (whole_text t).
Proof.
  intros H. unfold Soup.get_text_strip, whole_text. rewrite H.
  cbn [List.map List.filter List.concat]. rewrite app_nil_r.
  destruct (strip s) as [|c r] eqn:E; cbn [truthy List.concat];
    [reflexivity | now rewrite app_nil_r].
Qed.

(** C5, as stated, fails: a paragraph [ one <b>two</b>] gives [onetwo], not
    its text trimmed, [one two]. *)
Lemma paragraph_fragments_are_glued :
  ~ text_is_trimmed_element_texts Sample.article.
Proof. unfold text_is_trimmed_element_texts. vm_compute. discriminate. Qed.

(** C4, as stated, fails: a votes counter [<span>+</span> <span>12</span>]
    gives [+12], not its text trimmed, [+ 12]. *)
Lemma counter_fragments_are_glued :
  ~ counter_is_trimmed_text Likes Sample.split_counter_article.
Proof. unfold counter_is_trimmed_text. vm_compute. discriminate. Qed.

Example article_sample :
  Extract.article_data Sample.article
  = {| text := str "onetwo" ++ NEWLINE ++ str "three";
       likes := str "+12"; comments := [] |}.
Proof. vm_compute. reflexivity. Qed.

Example bare_article_sample :
  Extract.article_data Sample.bare_article
  = {| text := []; likes := str "0"; comments := str "0" |}.
Proof. vm_compute. reflexivity. Qed.

End Article.

(** ** The driver *)


Section Driver.

Variable respond : nat -> pstr -> option pstr.
Variable fromstring : pstr -> option node.
Variable BeautifulSoup : pstr -> option node.
Variable int : pstr -> option Z.

Lemma reaches_refl (w : world) : reaches w w 0 [].
Proof. unfold reaches. now rewrite app_nil_r. Qed.

Lemma reaches_trans (w1 w2 w3 : world) (n m : nat) (tr tr' : list event) :
  reaches w1 w2 n tr -> reaches w2 w3 m tr' ->
  reaches w1 w3 (n + m) (tr ++ tr').
Proof.
  intros (F1 & R1 & T1) (F2 & R2 & T2). unfold reaches.
  rewrite F2, F1, R2, R1, T2, T1, <- app_assoc.
  repeat split. lia.
Qed.

Lemma gets_app (tr tr' : list event) : gets (tr ++ tr') = gets tr ++ gets tr'.
Proof. apply omap_app. Qed.

Lemma writes_app (tr tr' : list event) :
  writes (tr ++ tr') = writes tr ++ writes tr'.
Proof. apply omap_app. Qed.

Lemma considered_app (tr tr' : list event) :
  considered (tr ++ tr') = considered tr ++ considered tr'.
Proof. apply omap_app. Qed.

Lemma pace_app (tr tr' : list event) : pace (tr ++ tr') = pace tr ++ pace tr'.
Proof. apply List.filter_app. Qed.

(** One candidate that is not known: announced, requested once, a record
    appended when the request and the parse succeed, the failure reported
    otherwise; no exception leaves the [try]. *)
Lemma attempt_spec (art : ArticleStub) (new_articles : list ArticleRecord)
    (w : world) :
  exists w' tr,
    try_except (process respond BeautifulSoup art new_articles)
      (fun e => print (Failed (url art) e);; mret new_articles) w
    = (Ok (match build respond BeautifulSoup (w_requests w) art with
           | Some r => new_articles ++ [r]
           | None => new_articles
           end), w') /\
    reaches w w' 1 tr /\
    gets tr = [url art] /\ writes tr = [] /\
    considered tr = [title art] /\
    pace tr = [Print (Parsing (title art))].
Proof.
  unfold try_except, process, build, get_article_data, fetch_html, lift,
    print, emit, mbind, M_bind, mret, M_ret, reaches.
  cbn [w_file w_requests w_trace].
  destruct (respond (w_requests w) (url art)) as [article_html|];
    [destruct (BeautifulSoup article_html) as [soup|]|];
    (eexists; eexists; split; [reflexivity|]);
    cbn [w_file w_requests w_trace];
    rewrite <- ?app_assoc; repeat split; reflexivity.
Qed.

Lemma bind_ok {A B} (m : M A) (f : A -> M B) (w w1 : world) (a : A) :
  m w = (Ok a, w1) -> (m ≫= f) w = f a w1.
Proof. intros E. unfold mbind, M_bind. now rewrite E. Qed.

Lemma bind_raise {A B} (m : M A) (f : A -> M B) (w w1 : world) (e : exn) :
  m w = (Raise e, w1) -> (m ≫= f) w = (Raise e, w1).
Proof. intros E. unfold mbind, M_bind. now rewrite E. Qed.

Lemma emit_spec (e : event) (w : world) :
  exists w1, emit e w = (Ok tt, w1) /\ reaches w w1 0 [e].
Proof. eexists. split; [reflexivity|]. unfold reaches. repeat split. Qed.

(** The loop: it ends without an exception; the known candidates are
    announced as skipped and nothing more; every other candidate is
    requested once, in order, and followed by the delay; the buffer receives
    the records that could be built, in order; the file is not touched. *)
Lemma main_loop_spec (existing_urls : gset pstr)
    (articles : list ArticleStub) :
  forall (new_articles : list ArticleRecord) (w : world),
  exists w' tr,
    main_loop respond BeautifulSoup existing_urls articles new_articles w
    = (Ok (new_articles
           ++ built_from respond BeautifulSoup (w_requests w)
                (List.filter (fun art => negb (is_known existing_urls art))
                             articles)), w') /\
    reaches w w'
      (length (List.filter (fun art => negb (is_known existing_urls art))
                           articles)) tr /\
    gets tr
    = List.map url
        (List.filter (fun art => negb (is_known existing_urls art)) articles) /\
    writes tr = [] /\
    considered tr = List.map title articles /\
    pace tr
    = List.flat_map
        (fun art =>
           if is_known existing_urls art
           then [Print (Skipped (title art))]
           else [Print (Parsing (title art)); Sleep 1])
        articles.
Proof.
  induction articles as [|art rest IH]; intros new_articles w.
  - exists w, []. cbn. rewrite app_nil_r.
    split; [reflexivity|]. split; [apply reaches_refl|]. repeat split.
  - cbn [main_loop List.filter List.flat_map List.map].
    change (bool_decide (url art ∈ existing_urls))
      with (is_known existing_urls art).
    destruct (is_known existing_urls art) eqn:K; cbn [negb].
    + destruct (emit_spec (Print (Skipped (title art))) w) as (w1 & E1 & R1).
      unfold print. rewrite (bind_ok _ _ _ _ _ E1).
      destruct (IH new_articles w1) as (w' & tr & E & R & G & W & C & P).
      exists w', ([Print (Skipped (title art))] ++ tr).
      destruct R1 as (F1 & Q1 & T1). rewrite Q1 in E. cbn [Nat.add] in E.
      split; [exact E|].
      split; [apply (reaches_trans w w1 w' 0); [repeat split; assumption | exact R]|].
      rewrite gets_app, writes_app, considered_app, pace_app, G, W, C, P.
      repeat split.
    + destruct (attempt_spec art new_articles w)
        as (w1 & tr1 & E1 & R1 & G1 & W1 & C1 & P1).
      rewrite (bind_ok _ _ _ _ _ E1).
      destruct (emit_spec (Sleep 1) w1) as (w2 & E2 & R2).
      unfold sleep. rewrite (bind_ok _ _ _ _ _ E2).
      match goal with |- context [main_loop _ _ _ rest ?acc w2] =>
        destruct (IH acc w2) as (w' & tr & E & R & G & W & C & P)
      end.
      pose proof (reaches_trans _ _ _ _ _ _ _ R1 R2) as R12.
      exists w', ((tr1 ++ [Sleep 1]) ++ tr).
      split.
      { rewrite E. f_equal. f_equal.
        destruct R12 as (_ & Q & _). rewrite Q. cbn [Nat.add built_from].
        destruct (build respond BeautifulSoup (w_requests w) art);
          [now rewrite <- app_assoc | reflexivity]. }
      split.
      { pose proof (reaches_trans _ _ _ _ _ _ _ R12 R) as R3.
        cbn [length]. exact R3. }
      rewrite !gets_app, !writes_app, !considered_app, !pace_app.
      rewrite G1, W1, C1, P1, G, W, C, P. repeat split.
Qed.

Lemma load_spec (w : world) :
  load_existing_data w
  = (match w_file w with
     | Some (Json data) => Ok data
     | Some Malformed => Raise JSONDecodeError
     | None => Ok []
     end, w).
Proof.
  unfold load_existing_data. destruct (w_file w) as [[data|]|]; reflexivity.
Qed.

Lemma fetch_spec (u : pstr) (w : world) :
  exists w1,
    fetch_html respond u w
    = (match respond (w_requests w) u with
       | Some body => Ok body
       | None => Raise RequestException
       end, w1) /\
    reaches w w1 1 [Get u].
Proof.
  unfold fetch_html.
  destruct (respond (w_requests w) u); eexists; (split; [reflexivity|]);
    unfold reaches; repeat split.
Qed.

(** [main] up to the end of the loop, when the store loads and the listing
    is served and parsed. *)
Lemma main_collect_spec (limit : Z) (w : world)
    (existing : list ArticleRecord) (main_html : pstr) (tree : node) :
  load_existing_data w = (Ok existing, w) ->
  respond (w_requests w) HABR_URL = Some main_html ->
  fromstring main_html = Some tree ->
  exists w' tr,
    main_collect respond fromstring BeautifulSoup limit w
    = (Ok (existing,
           built_from respond BeautifulSoup (S (w_requests w))
             (List.filter
                (fun art => negb (is_known (known_urls existing) art))
                (slice_to (Extract.parse_listing tree) limit))), w') /\
    reaches w w'
      (S (length (List.filter
                    (fun art => negb (is_known (known_urls existing) art))
                    (slice_to (Extract.parse_listing tree) limit)))) tr /\
    gets tr
    = HABR_URL
      :: List.map url
           (List.filter
              (fun art => negb (is_known (known_urls existing) art))
              (slice_to (Extract.parse_listing tree) limit)) /\
    writes tr = [] /\
    considered tr
    = List.map title (slice_to (Extract.parse_listing tree) limit).
Proof.
  intros Hload Hget Hparse. unfold main_collect, make_session.
  unfold mbind at 1, M_bind at 1, mret at 1, M_ret at 1.
  rewrite (bind_ok _ _ _ _ _ Hload).
  destruct (fetch_spec HABR_URL w) as (w1 & E1 & R1).
  rewrite Hget in E1. rewrite (bind_ok _ _ _ _ _ E1).
  unfold parse_main_page. rewrite Hparse.
  unfold lift at 1. unfold mbind at 1, M_bind at 1.
  fold (known_urls existing).
  destruct (main_loop_spec (known_urls existing)
              (slice_to (Extract.parse_listing tree) limit) [] w1)
    as (w' & tr & E & R & G & W & C & _).
  rewrite (bind_ok _ _ _ _ _ E). unfold mret, M_ret.
  exists w', ([Get HABR_URL] ++ tr).
  pose proof (reaches_trans _ _ _ _ _ _ _ R1 R) as R2.
  destruct R1 as (_ & Q1 & _). rewrite Q1. cbn [Nat.add app] in *.
  split; [reflexivity|].
  split; [exact R2|].
  change (Get HABR_URL :: tr) with ([Get HABR_URL] ++ tr).
  rewrite gets_app, writes_app, considered_app, G, W, C.
  repeat split.
Qed.

(** Whatever its outcome, [main] up to the end of the loop leaves the store
    file as it found it and writes nothing. *)
Lemma main_collect_frame (limit : Z) (w w1 : world)
    (r : result (list ArticleRecord * list ArticleRecord)) :
  main_collect respond fromstring BeautifulSoup limit w = (r, w1) ->
  w_file w1 = w_file w /\ writes (w_trace w1) = writes (w_trace w).
Proof.
  unfold main_collect, make_session.
  unfold mbind at 1, M_bind at 1, mret at 1, M_ret at 1.
  unfold mbind at 1, M_bind at 1. rewrite load_spec.
  destruct (w_file w) as [[data|]|] eqn:F;
    try (intros [= <- <-]; split; [exact F | reflexivity]).
  all: destruct (fetch_spec HABR_URL w) as (w2 & E2 & (F2 & _ & T2)).
  all: destruct (respond (w_requests w) HABR_URL) as [main_html|];
    [rewrite (bind_ok _ _ _ _ _ E2)
    |rewrite (bind_raise _ _ _ _ _ E2); intros [= <- <-];
     rewrite F2, F, T2, writes_app, app_nil_r; now split].
  all: unfold parse_main_page; destruct (fromstring main_html) as [tree|];
    unfold lift at 1; unfold mbind at 1, M_bind at 1;
    [|intros [= <- <-]; rewrite F2, F, T2, writes_app, app_nil_r; now split].
  all: match goal with
       | |- context [(main_loop _ _ ?urls ?arts [] ≫= _) ?wx] =>
         destruct (main_loop_spec urls arts [] wx)
           as (w' & tr & E & (F3 & _ & T3) & _ & W & _)
       end.
  all: rewrite (bind_ok _ _ _ _ _ E); unfold mret, M_ret; intros [= <- <-].
  all: rewrite F3, F2, F, T3, T2, !writes_app, W, !app_nil_r; now split.
Qed.

(** The end of [main]: no write when there is nothing new; otherwise one
    write of the old records followed by the new ones, which goes through
    when every string can be encoded and raises, leaving a cut-off file,
    when one cannot; no request. *)
Lemma main_save_spec (existing new_articles : list ArticleRecord)
    (w : world) :
  exists r w',
    main_save existing new_articles w = (r, w') /\
    w_requests w' = w_requests w /\
    gets (w_trace w') = gets (w_trace w) /\
    considered (w_trace w') = considered (w_trace w) /\
    (new_articles = [] ->
       r = Ok tt /\
       w_file w' = w_file w /\ writes (w_trace w') = writes (w_trace w)) /\
    (new_articles <> [] -> saveable (existing ++ new_articles) = true ->
       r = Ok tt /\
       w_file w' = Some (Json (existing ++ new_articles)) /\
       writes (w_trace w') = writes (w_trace w) ++ [existing ++ new_articles]) /\
    (new_articles <> [] -> saveable (existing ++ new_articles) = false ->
       r = Raise UnicodeEncodeError /\ w_file w' = Some Malformed).
Proof.
  destruct new_articles as [|r rs];
    unfold main_save, save_data, print, emit, mbind, M_bind;
    [|destruct (saveable (existing ++ r :: rs)) eqn:S];
    eexists; eexists; (split; [reflexivity|]);
    cbn [w_file w_requests w_trace];
    rewrite ?gets_app, ?writes_app, ?considered_app; cbn;
    rewrite ?app_nil_r; repeat split; congruence.
Qed.

Lemma is_known_iff (existing : list ArticleRecord) (art : ArticleStub) :
  is_known (known_urls existing) art = true
  <-> In (url art) (List.map rec_url existing).
Proof.
  unfold is_known, known_urls.
  now rewrite bool_decide_eq_true, elem_of_list_to_set, list_elem_of_In.
Qed.


(** C2. A run whose buffer of new records is empty at the end of the loop
    ends without a save: the store file is as the run found it and the run
    has written nothing. *)
Theorem no_save_when_nothing_new (limit : Z) (w w1 : world)
    (existing : list ArticleRecord) :
  main_collect respond fromstring BeautifulSoup limit w
  = (Ok (existing, []), w1) ->
  exists w2,
    main respond fromstring BeautifulSoup limit w = (Ok tt, w2) /\
    w_file w2 = w_file w /\
    writes (w_trace w2) = writes (w_trace w).
Proof.
  intros E.
  destruct (main_collect_frame _ _ _ _ E) as (F1 & W1).
  destruct (main_save_spec existing [] w1)
    as (r & w2 & E2 & _ & _ & _ & Hnil & _).
  destruct (Hnil eq_refl) as (-> & F2 & W2).
  exists w2. unfold main. rewrite (bind_ok _ _ _ _ _ E).
  split; [exact E2|]. now rewrite F2, W2.
Qed.

(** Nothing is built when every candidate to fetch fails. *)
Lemma built_from_all_fail (to_fetch : list ArticleStub) :
  forall k,
    (forall j art, In art to_fetch ->
       build respond BeautifulSoup j art = None) ->
    built_from respond BeautifulSoup k to_fetch = [].
Proof.
  induction to_fetch as [|art rest IH]; intros k H; [reflexivity|].
  cbn [built_from]. rewrite (H k art (or_introl eq_refl)).
  apply IH. intros j b Hb. apply H. now right.
Qed.

(** Nothing is left to fetch when every candidate is known. *)
Lemma nothing_to_fetch_all_known (existing_urls : gset pstr)
    (candidates : list ArticleStub) :
  Forall (fun art => is_known existing_urls art = true) candidates ->
  List.filter (fun art => negb (is_known existing_urls art)) candidates = [].
Proof.
  induction 1 as [|art rest K _ IH]; [reflexivity|].
  cbn [List.filter]. now rewrite K.
Qed.

(** C3. Without a store file the load gives the empty list. With a store
    file that is not JSON, [main] ends with the decoding error in the world
    it started from: no request has been sent and nothing has happened. *)
Theorem corrupt_store_aborts_before_network (limit : Z) (n : nat)
    (tr : list event) :
  load_existing_data {| w_file := None; w_requests := n; w_trace := tr |}
  = (Ok [], {| w_file := None; w_requests := n; w_trace := tr |}) /\
  main respond fromstring BeautifulSoup limit
    {| w_file := Some Malformed; w_requests := n; w_trace := tr |}
  = (Raise JSONDecodeError,
     {| w_file := Some Malformed; w_requests := n; w_trace := tr |}) /\
  gets (w_trace (snd (main respond fromstring BeautifulSoup limit
                        (start (Some Malformed))))) = [].
Proof. repeat split. Qed.

Lemma slice_to_nonneg {A} (l : list A) (N : Z) :
  0 <= N -> slice_to l N = firstn (Z.to_nat N) l.
Proof.
  intros H. unfold slice_to.
  destruct (N <? 0) eqn:E; [apply Z.ltb_lt in E; lia | reflexivity].
Qed.

(** With a negative limit the slice drops as many stubs from the end. *)
Lemma slice_to_negative {A} (l : list A) (N : Z) :
  N < 0 -> slice_to l N = firstn (length l - Z.to_nat (- N)) l.
Proof.
  intros H. unfold slice_to.
  destruct (N <? 0) eqn:E; [|apply Z.ltb_ge in E; lia].
  f_equal. lia.
Qed.

(** C9, as the code has it. The script passes [main] the limit given on the
    command line, 5 when none is given; with a limit [N] that is not
    negative, [main] takes up the first [N] stubs of the listing, all of
    them when there are fewer, in listing order. *)
Theorem limit_takes_first_stubs (argv : list pstr) (N : Z)
    (file : option file_content) :
  cli_limit int argv = Ok N ->
  0 <= N ->
  file <> Some Malformed ->
  script respond fromstring BeautifulSoup int argv
  = main respond fromstring BeautifulSoup N /\
  ((length argv <= 1)%nat -> N = 5) /\
  (forall prog arg rest, argv = prog :: arg :: rest -> int arg = Some N) /\
  first_stubs_considered respond fromstring BeautifulSoup file N.
Proof.
  intros Hcli HN Hfile. split; [|split; [|split]].
  - unfold script. rewrite Hcli. reflexivity.
  - intros H. destruct argv as [|prog [|arg rest]];
      cbn in Hcli, H; [congruence | congruence | lia].
  - intros prog arg rest ->. cbn in Hcli.
    destruct (int arg); congruence.
  - intros main_html tree Hget Hparse.
    assert (Hload : exists existing,
               load_existing_data (start file) = (Ok existing, start file)).
    { rewrite load_spec. cbn [start w_file].
      destruct file as [[data|]|]; [eauto | congruence | eauto]. }
    destruct Hload as (existing & Hload).
    destruct (main_collect_spec N (start file) existing main_html tree
                Hload Hget Hparse)
      as (w1 & tr & E & (_ & _ & T1) & _ & _ & C).
    destruct (main_save_spec existing
                (built_from respond BeautifulSoup (S (w_requests (start file)))
                   (List.filter
                      (fun art => negb (is_known (known_urls existing) art))
                      (slice_to (Extract.parse_listing tree) N))) w1)
      as (r & w2 & E2 & _ & _ & C2 & _).
    unfold main. rewrite (bind_ok _ _ _ _ _ E). rewrite E2. cbn [snd].
    rewrite C2, T1. cbn [start w_trace app]. rewrite C.
    now rewrite slice_to_nonneg.
Qed.

End Driver.

(** ** The sample run *)

Section SampleRun.

Local Open Scope string_scope.


Lemma no_save_when_nothing_new_witness :
  exists w2,
    main Sample.respond_listing_only Sample.fromstring Sample.BeautifulSoup 5
      (start (Some (Json Sample.store_AB))) = (Ok tt, w2) /\
    w_file w2 = Some (Json Sample.store_AB) /\
    writes (w_trace w2) = [].
Proof.
  refine (no_save_when_nothing_new Sample.respond_listing_only
            Sample.fromstring Sample.BeautifulSoup 5
            (start (Some (Json Sample.store_AB)))
            (snd (main_collect Sample.respond_listing_only Sample.fromstring
                    Sample.BeautifulSoup 5
                    (start (Some (Json Sample.store_AB)))))
            Sample.store_AB _).
  vm_compute. reflexivity.
Defined.

Lemma limit_takes_first_stubs_witness :
  considered
    (w_trace (snd (main Sample.respond Sample.fromstring Sample.BeautifulSoup
                     2 (start None))))
  = [str "A"; str "C"].
Proof.
  refine (proj2 (proj2 (proj2
            (limit_takes_first_stubs Sample.respond Sample.fromstring
               Sample.BeautifulSoup Sample.int
               [str "main.py"; str "2"] 2 None _ _ _)))
            (str "listing") Sample.listing _ _).
  - vm_compute. reflexivity.
  - lia.
  - discriminate.
  - reflexivity.
  - reflexivity.
Defined.


Example surrogate_store_sample :
  let run := main Sample.respond Sample.fromstring Sample.BeautifulSoup 3
               (start (Some (Json Outage.store_surrogate))) in
  fst run = Raise UnicodeEncodeError /\
  w_file (snd run) = Some Malformed /\
  gets (w_trace (snd run))
  = [HABR_URL; Sample.url_A; Sample.url_C; Sample.url_D].
Proof. vm_compute. repeat split. Qed.

(** C9, as stated, fails: with the limit -1 and a listing of three stubs
    the driver takes up the first two, not none. *)
Lemma negative_limit_drops_from_end :
  ~ first_stubs_considered Sample.respond Sample.fromstring
      Sample.BeautifulSoup None (-1).
Proof.
  intros H. specialize (H (str "listing") Sample.listing eq_refl eq_refl).
  vm_compute in H. discriminate.
Qed.

(** C8, as stated, fails: a candidate that is skipped is followed by no
    delay. *)
Lemma skipped_candidate_has_no_delay :
  ~ delay_after_every_candidate Sample.respond Sample.BeautifulSoup
      (known_urls Sample.store_AB)
      [{| title := str "A"; url := Sample.url_A |}].
Proof.
  unfold delay_after_every_candidate. vm_compute. discriminate.
Qed.

(** The listing of three with the limit 5 and no store: all three are
    fetched and stored. *)
Example first_run_sample :
  let w := snd (main Sample.respond Sample.fromstring Sample.BeautifulSoup 5
                  (start None)) in
  gets (w_trace w) = [HABR_URL; Sample.url_A; Sample.url_C; Sample.url_D] /\
  List.map rec_url (stored w) = [Sample.url_A; Sample.url_C; Sample.url_D] /\
  List.length (List.filter (fun e => match e with Sleep _ => true | _ => false end)
                 (w_trace w)) = 3%nat.
Proof. vm_compute. repeat split. Qed.

(** The limit -1 on the same listing: the last stub is dropped. *)
Example negative_limit_sample :
  considered
    (w_trace (snd (main Sample.respond Sample.fromstring Sample.BeautifulSoup
                     (-1) (start None))))
  = [str "A"; str "C"].
Proof. vm_compute. reflexivity. Qed.

End SampleRun.

(** ** More on the driver: the exact trace of a run *)

Section Runs.

Variable respond : nat -> pstr -> option pstr.
Variable fromstring : pstr -> option node.
Variable BeautifulSoup : pstr -> option node.
Variable int : pstr -> option Z.

Lemma world_eta (w : world) :
  w = {| w_file := w_file w; w_requests := w_requests w;
         w_trace := w_trace w |}.
Proof. now destruct w. Qed.

(** One candidate that is not known, event by event, up to the delay. *)
Lemma attempt_exact (art : ArticleStub) (new_articles : list ArticleRecord)
    (w : world) :
  try_except (process respond BeautifulSoup art new_articles)
    (fun e => print (Failed (url art) e);; mret new_articles) w
  = (Ok (match build respond BeautifulSoup (w_requests w) art with
         | Some r => new_articles ++ [r]
         | None => new_articles
         end),
     {| w_file := w_file w; w_requests := S (w_requests w);
        w_trace := w_trace w
                   ++ [Print (Parsing (title art)); Get (url art)]
                   ++ failure_events respond BeautifulSoup (w_requests w) art |}).
Proof.
  unfold try_except, process, build, get_article_data, fetch_html, lift,
    print, emit, mbind, M_bind, mret, M_ret, failure_events.
  cbn [w_file w_requests w_trace].
  destruct (respond (w_requests w) (url art)) as [article_html|];
    [destruct (BeautifulSoup article_html) as [soup|]|];
    cbn [w_file w_requests w_trace app]; rewrite <- ?app_assoc;
    rewrite ?app_nil_r; reflexivity.
Qed.

(** The loop in closed form: its value, and the world it reaches. *)
Lemma main_loop_exact (existing_urls : gset pstr)
    (articles : list ArticleStub) :
  forall (new_articles : list ArticleRecord) (w : world),
    main_loop respond BeautifulSoup existing_urls articles new_articles w
    = (Ok (new_articles
           ++ built_from respond BeautifulSoup (w_requests w)
                (List.filter (fun art => negb (is_known existing_urls art))
                             articles)),
       {| w_file := w_file w;
          w_requests :=
            (length (List.filter
                       (fun art => negb (is_known existing_urls art))
                       articles)
             + w_requests w)%nat;
          w_trace := w_trace w
                     ++ loop_events respond BeautifulSoup (w_requests w)
                          existing_urls articles |}).
Proof.
  induction articles as [|art rest IH]; intros new_articles w.
  - cbn. rewrite !app_nil_r. now destruct w.
  - cbn [main_loop List.filter loop_events].
    change (bool_decide (url art ∈ existing_urls))
      with (is_known existing_urls art).
    destruct (is_known existing_urls art) eqn:K; cbn [negb].
    + unfold mbind at 1, M_bind at 1, print, emit.
      rewrite IH. cbn [w_file w_requests w_trace].
      now rewrite <- app_assoc.
    + rewrite (bind_ok _ _ _ _ _ (attempt_exact art new_articles w)).
      unfold mbind at 1, M_bind at 1, sleep, emit.
      cbn [w_file w_requests w_trace].
      rewrite IH. cbn [w_file w_requests w_trace length built_from].
      unfold attempt_events. rewrite <- !app_assoc.
      f_equal; [|f_equal; lia].
      f_equal.
      destruct (build respond BeautifulSoup (w_requests w) art);
        [now rewrite <- app_assoc | reflexivity].
Qed.

Lemma loop_events_segments (existing_urls : gset pstr)
    (articles : list ArticleStub) :
  forall k,
  exists segments,
    Forall2 (candidate_segment existing_urls) articles segments /\
    loop_events respond BeautifulSoup k existing_urls articles
    = List.concat segments.
Proof.
  induction articles as [|art rest IH]; intros k.
  - exists []. split; [constructor | reflexivity].
  - cbn [loop_events].
    destruct (is_known existing_urls art) eqn:K.
    + destruct (IH k) as (segments & HF & E).
      exists ([Print (Skipped (title art))] :: segments). split.
      * constructor; [|exact HF]. unfold candidate_segment. now rewrite K.
      * cbn [List.concat app]. now rewrite E.
    + destruct (IH (S k)) as (segments & HF & E).
      exists (attempt_events respond BeautifulSoup k art :: segments). split.
      * constructor; [|exact HF]. unfold candidate_segment. rewrite K.
        exists (failure_events respond BeautifulSoup k art).
        split; [reflexivity|]. unfold failure_events.
        destruct (respond k (url art)) as [article_html|];
          [destruct (BeautifulSoup article_html)|]; eauto.
      * cbn [List.concat]. now rewrite E.
Qed.

(** C8, as the code has it. The events of the loop are the events of its
    candidates, one candidate after the other. For a candidate that is not
    skipped they are the announcement, the request, the failure notice if
    the fetch or the parse failed, and then, last, the delay of one second:
    the delay follows the candidate whether it succeeded or failed, and
    comes before the next candidate. For a skipped candidate they are the
    skip notice alone: no delay follows it. *)
Theorem delay_follows_fetched_candidates (existing_urls : gset pstr)
    (articles : list ArticleStub) (new_articles : list ArticleRecord)
    (w : world) :
  exists segments,
    Forall2 (candidate_segment existing_urls) articles segments /\
    w_trace (snd (main_loop respond BeautifulSoup existing_urls articles
                    new_articles w))
    = w_trace w ++ List.concat segments.
Proof.
  destruct (loop_events_segments existing_urls articles (w_requests w))
    as (segments & HF & E).
  exists segments. split; [exact HF|].
  rewrite main_loop_exact. cbn [snd w_trace]. now rewrite E.
Qed.

(** [main] in closed form once the store has loaded. *)
Lemma main_after_load (limit : Z) (w : world)
    (existing : list ArticleRecord) :
  load_existing_data w = (Ok existing, w) ->
  main respond fromstring BeautifulSoup limit w
  = let w1 := {| w_file := w_file w; w_requests := S (w_requests w);
                 w_trace := w_trace w ++ [Get HABR_URL] |} in
    match respond (w_requests w) HABR_URL with
    | None => (Raise RequestException, w1)
    | Some main_html =>
        match fromstring main_html with
        | None => (Raise ParserError, w1)
        | Some tree =>
            let candidates := slice_to (Extract.parse_listing tree) limit in
            let to_fetch :=
              List.filter
                (fun art => negb (is_known (known_urls existing) art))
                candidates in
            let built :=
              built_from respond BeautifulSoup (S (w_requests w)) to_fetch in
            (save_result existing built,
             {| w_file := save_file (w_file w) existing built;
                w_requests := (length to_fetch + S (w_requests w))%nat;
                w_trace :=
                  (w_trace w ++ [Get HABR_URL])
                  ++ loop_events respond BeautifulSoup (S (w_requests w))
                       (known_urls existing) candidates
                  ++ save_events existing built |})
        end
    end.
Proof.
  intros Hload. unfold main, main_collect, make_session.
  unfold mbind at 2, M_bind at 2, mret at 1, M_ret at 1.
  unfold mbind at 1, M_bind at 1. unfold mbind at 1, M_bind at 1.
  rewrite Hload. cbn zeta.
  unfold mbind, M_bind, fetch_html, parse_main_page, lift.
  destruct (respond (w_requests w) HABR_URL) as [main_html|]; [|reflexivity].
  destruct (fromstring main_html) as [tree|]; [|reflexivity].
  fold (known_urls existing). rewrite main_loop_exact.
  cbn [w_file w_requests w_trace app mret M_ret].
  destruct (built_from respond BeautifulSoup (S (w_requests w))
              (List.filter
                 (fun art => negb (is_known (known_urls existing) art))
                 (slice_to (Extract.parse_listing tree) limit)))
    as [|r rs] eqn:B;
    unfold main_save, save_data, print, emit, mbind, M_bind, save_events,
      save_result, save_file;
    [|destruct (saveable (existing ++ r :: rs))];
    cbn [w_file w_requests w_trace]; rewrite <- ?app_assoc; reflexivity.
Qed.

Lemma load_not_malformed (w : world) :
  w_file w <> Some Malformed ->
  load_existing_data w = (Ok (stored w), w).
Proof.
  intros H. unfold load_existing_data, stored.
  destruct (w_file w) as [[data|]|]; congruence.
Qed.

Lemma main_malformed (limit : Z) (w : world) :
  w_file w = Some Malformed ->
  main respond fromstring BeautifulSoup limit w = (Raise JSONDecodeError, w).
Proof.
  intros F. unfold main, main_collect, make_session, mbind, M_bind, mret,
    M_ret, load_existing_data. now rewrite F.
Qed.

Lemma sleeps_app (tr tr' : list event) :
  sleeps (tr ++ tr') = sleeps tr ++ sleeps tr'.
Proof. apply omap_app. Qed.

Lemma failures_app (tr tr' : list event) :
  failures (tr ++ tr') = failures tr ++ failures tr'.
Proof. apply omap_app. Qed.

Lemma failure_events_quiet (k : nat) (art : ArticleStub) :
  gets (failure_events respond BeautifulSoup k art) = [] /\
  writes (failure_events respond BeautifulSoup k art) = [] /\
  sleeps (failure_events respond BeautifulSoup k art) = [] /\
  failures (failure_events respond BeautifulSoup k art)
  = match build respond BeautifulSoup k art with
    | Some _ => []
    | None => [url art]
    end.
Proof.
  unfold failure_events, build.
  destruct (respond k (url art)) as [article_html|];
    [destruct (BeautifulSoup article_html)|]; repeat split.
Qed.

(** The requests, writes, delays and failure notices among the events of
    the loop. *)
Lemma loop_events_projections (existing_urls : gset pstr)
    (articles : list ArticleStub) :
  forall k,
    let to_fetch :=
      List.filter (fun art => negb (is_known existing_urls art)) articles in
    gets (loop_events respond BeautifulSoup k existing_urls articles)
    = List.map url to_fetch /\
    writes (loop_events respond BeautifulSoup k existing_urls articles) = [] /\
    sleeps (loop_events respond BeautifulSoup k existing_urls articles)
    = List.map (fun _ => 1) to_fetch /\
    failures (loop_events respond BeautifulSoup k existing_urls articles)
    = List.map url (failed_from respond BeautifulSoup k to_fetch).
Proof.
  induction articles as [|art rest IH]; intros k; cbn zeta.
  - repeat split.
  - cbn [loop_events List.filter].
    destruct (is_known existing_urls art) eqn:K; cbn [negb].
    + destruct (IH k) as (G & W & S & F). repeat split; assumption.
    + destruct (IH (S k)) as (G & W & S & F).
      destruct (failure_events_quiet k art) as (G1 & W1 & S1 & F1).
      unfold attempt_events.
      rewrite !gets_app, !writes_app, !sleeps_app, !failures_app.
      rewrite G, W, S, F, G1, W1, S1, F1.
      cbn [List.map failed_from].
      destruct (build respond BeautifulSoup k art); repeat split.
Qed.

Lemma built_and_failed (to_fetch : list ArticleStub) :
  forall k,
    (length (built_from respond BeautifulSoup k to_fetch)
     + length (failed_from respond BeautifulSoup k to_fetch))%nat
    = length to_fetch.
Proof.
  induction to_fetch as [|art rest IH]; intros k; [reflexivity|].
  cbn [built_from failed_from].
  destruct (build respond BeautifulSoup k art); cbn [length];
    specialize (IH (S k)); lia.
Qed.

(** X1. The loop never ends with an exception, whatever the network and the
    parser do. It leaves the store file alone, and its events are exactly:
    the skip notice for a known candidate; the announcement, the request,
    the failure notice if the request or the parse failed, and then the
    delay, for any other. *)
Theorem loop_events_exact (existing_urls : gset pstr)
    (articles : list ArticleStub) (new_articles : list ArticleRecord)
    (w : world) :
  exists buffer w',
    main_loop respond BeautifulSoup existing_urls articles new_articles w
    = (Ok buffer, w') /\
    w_file w' = w_file w /\
    w_trace w'
    = w_trace w
      ++ loop_events respond BeautifulSoup (w_requests w) existing_urls
           articles.
Proof.
  rewrite main_loop_exact. eexists. eexists. repeat split.
Qed.

(** X2. In the loop every candidate that is not known gives either a record
    in the buffer or a failure notice that names its URL, never both and
    never neither; the notices come in candidate order. *)
Theorem failed_candidates_reported (existing_urls : gset pstr)
    (articles : list ArticleStub) (new_articles : list ArticleRecord)
    (w : world) :
  let to_fetch :=
    List.filter (fun art => negb (is_known existing_urls art)) articles in
  let built := built_from respond BeautifulSoup (w_requests w) to_fetch in
  let failed := failed_from respond BeautifulSoup (w_requests w) to_fetch in
  fst (main_loop respond BeautifulSoup existing_urls articles new_articles w)
  = Ok (new_articles ++ built) /\
  failures (w_trace (snd (main_loop respond BeautifulSoup existing_urls
                            articles new_articles w)))
  = failures (w_trace w) ++ List.map url failed /\
  (length built + length failed)%nat = length to_fetch.
Proof.
  cbn zeta. rewrite main_loop_exact. cbn [fst snd w_trace].
  destruct (loop_events_projections existing_urls articles (w_requests w))
    as (_ & _ & _ & F).
  rewrite failures_app, F. repeat split. apply built_and_failed.
Qed.

(** X3. A run that does not end with [UnicodeEncodeError], whether it
    finishes or aborts, keeps the records the store held, in order and at
    the front: the store only grows at its end. A run ends with
    [UnicodeEncodeError] only in its save, when it has built records and a
    string of the old or the new records holds a surrogate; the file is
    then left cut off. *)
Theorem store_grows_unless_save_fails (limit : Z) (w : world) :
  (fst (main respond fromstring BeautifulSoup limit w)
   <> Raise UnicodeEncodeError ->
   stored w
   `prefix_of` stored (snd (main respond fromstring BeautifulSoup limit w)))
  /\
  (fst (main respond fromstring BeautifulSoup limit w)
   = Raise UnicodeEncodeError ->
   w_file (snd (main respond fromstring BeautifulSoup limit w))
   = Some Malformed /\
   exists built,
     built <> [] /\ saveable (stored w ++ built) = false /\
     last (w_trace (snd (main respond fromstring BeautifulSoup limit w)))
     = Some (Write (stored w ++ built))).
Proof.
  destruct (w_file w) as [[data|]|] eqn:F.
  2: { rewrite main_malformed by exact F. cbn [fst snd].
       split; [reflexivity | discriminate]. }
  all: rewrite (main_after_load limit w (stored w))
         by (apply load_not_malformed; congruence).
  all: cbn zeta; destruct (respond (w_requests w) HABR_URL) as [main_html|];
    [destruct (fromstring main_html) as [tree|]|];
    try (cbn [fst snd]; split; [intros _; unfold stored; cbn [w_file];
                               reflexivity | discriminate]).
  all: cbn [fst snd w_file w_trace].
  all: match goal with |- context [built_from ?r ?b ?k ?l] =>
         destruct (built_from r b k l) as [|x xs]
       end;
    unfold save_result, save_file, save_events;
    [split; [intros _; unfold stored; cbn [w_file]; reflexivity
            |discriminate]|].
  all: destruct (saveable (stored w ++ x :: xs)) eqn:S.
  1,3: split; [intros _; unfold stored at 2; cbn [w_file];
               now apply prefix_app_r | discriminate].
  all: split; [congruence|]; intros _; split; [reflexivity|].
  all: exists (x :: xs); split; [discriminate|]; split; [exact S|].
  all: rewrite !app_assoc; apply last_snoc.
Qed.

(** X4. When the listing cannot be fetched or parsed, [main] ends with that
    exception after its one request: the loop is never entered, no article
    is requested and the store file is as it was. *)
Theorem listing_failure_is_fatal (limit : Z) (w w1 : world) (e : exn) :
  w_file w <> Some Malformed ->
  (fetch_html respond HABR_URL
   ≫= fun main_html => lift (parse_main_page fromstring main_html)) w
  = (Raise e, w1) ->
  main respond fromstring BeautifulSoup limit w = (Raise e, w1) /\
  w_file w1 = w_file w /\
  w_requests w1 = S (w_requests w) /\
  w_trace w1 = w_trace w ++ [Get HABR_URL].
Proof.
  intros Hfile. rewrite (main_after_load limit w (stored w))
    by (now apply load_not_malformed).
  unfold mbind, M_bind, fetch_html, parse_main_page, lift. cbn zeta.
  destruct (respond (w_requests w) HABR_URL) as [main_html|];
    [destruct (fromstring main_html) as [tree|]|];
    intros [= <- <-] || discriminate; repeat split.
Qed.

(** X5. With a limit [N] that is not negative a run sends at most [1 + N]
    requests, whatever the listing holds and whatever fails. *)
Theorem requests_bounded_by_limit (N : Z) (w : world) :
  0 <= N ->
  (w_requests (snd (main respond fromstring BeautifulSoup N w))
   <= w_requests w + 1 + Z.to_nat N)%nat.
Proof.
  intros HN.
  destruct (w_file w) as [[data|]|] eqn:F.
  2: { rewrite main_malformed by exact F. cbn [snd]. lia. }
  all: rewrite (main_after_load N w (stored w))
         by (apply load_not_malformed; congruence).
  all: cbn zeta; destruct (respond (w_requests w) HABR_URL) as [main_html|];
    [destruct (fromstring main_html) as [tree|]|];
    cbn [snd w_requests]; try lia.
  all: match goal with |- context [List.filter ?f ?l] =>
         pose proof (List.filter_length_le f l) as Hf
       end.
  all: rewrite slice_to_nonneg in * by exact HN.
  all: rewrite length_firstn in Hf; lia.
Qed.

Lemma save_events_projections (existing built : list ArticleRecord) :
  gets (save_events existing built) = [] /\
  sleeps (save_events existing built) = [] /\
  failures (save_events existing built) = [].
Proof.
  unfold save_events. destruct built as [|x xs];
    [|destruct (saveable (existing ++ x :: xs))]; repeat split.
Qed.

Lemma rhythm_app (tr tr' : list event) :
  rhythm (tr ++ tr') = rhythm tr ++ rhythm tr'.
Proof. apply List.filter_app. Qed.

Lemma rhythm_save_events (existing built : list ArticleRecord) :
  rhythm (save_events existing built) = [].
Proof.
  unfold save_events. destruct built as [|x xs];
    [|destruct (saveable (existing ++ x :: xs))]; reflexivity.
Qed.

Lemma rhythm_loop_events (existing_urls : gset pstr)
    (articles : list ArticleStub) :
  forall k,
    rhythm (loop_events respond BeautifulSoup k existing_urls articles)
    = List.flat_map (fun u => [Get u; Sleep 1])
        (List.map url
           (List.filter (fun art => negb (is_known existing_urls art))
                        articles)).
Proof.
  induction articles as [|art rest IH]; intros k; [reflexivity|].
  cbn [loop_events List.filter].
  destruct (is_known existing_urls art) eqn:K; cbn [negb].
  - cbn [rhythm List.filter]. apply IH.
  - unfold attempt_events. rewrite !rhythm_app, IH.
    cbn [List.map List.flat_map app].
    assert (Hq : rhythm (failure_events respond BeautifulSoup k art) = []).
    { unfold failure_events.
      destruct (respond k (url art)) as [article_html|];
        [destruct (BeautifulSoup article_html)|]; reflexivity. }
    rewrite Hq. reflexivity.
Qed.

(** X6. In every run, finished or aborted, the requests and the delays
    alternate in this way: first the listing request, followed by no delay;
    then, for each article request in turn, the request and after it one
    delay of one second, before the next request. *)
Theorem article_request_then_delay (limit : Z)
    (file : option file_content) :
  let tr := w_trace (snd (main respond fromstring BeautifulSoup limit
                            (start file))) in
  rhythm tr
  = match gets tr with
    | [] => []
    | listing :: articles =>
        Get listing :: List.flat_map (fun u => [Get u; Sleep 1]) articles
    end.
Proof.
  cbn zeta.
  destruct file as [[data|]|].
  2: { rewrite main_malformed by reflexivity. reflexivity. }
  all: match goal with |- context [main _ _ _ _ ?w0] =>
         rewrite (main_after_load limit w0 (stored w0))
           by (apply load_not_malformed; unfold start; cbn [w_file];
               discriminate)
       end.
  all: cbn zeta; cbn [start w_requests w_trace w_file app];
    destruct (respond 0%nat HABR_URL) as [main_html|];
    [destruct (fromstring main_html) as [tree|]|];
    try reflexivity.
  all: cbn [snd w_trace].
  all: match goal with |- context [loop_events _ _ ?k ?urls ?arts] =>
         destruct (loop_events_projections urls arts k) as (G & _ & _ & _);
         pose proof (rhythm_loop_events urls arts k) as R
       end.
  all: match goal with |- context [save_events ?e ?b] =>
         destruct (save_events_projections e b) as (G2 & _ & _);
         pose proof (rhythm_save_events e b) as R2
       end.
  all: change (Get HABR_URL :: ?l) with ([Get HABR_URL] ++ l).
  all: rewrite !rhythm_app, !gets_app, G, R, G2, R2.
  all: cbn [gets rhythm List.filter omap list_omap app].
  all: now rewrite !app_nil_r.
Qed.

(** X7. A run that finishes ends with its summary. Either it says how many
    records were added, that number is positive, the store has grown by as
    many records, and the run wrote the file once, with the whole store; or
    it says there is nothing new, and the file is as it was. *)
Theorem summary_counts_new_records (limit : Z) (w w' : world) :
  main respond fromstring BeautifulSoup limit w = (Ok tt, w') ->
  (exists n,
     (0 < n)%nat /\
     last (w_trace w') = Some (Print (Added n)) /\
     length (stored w') = (length (stored w) + n)%nat /\
     writes (w_trace w') = writes (w_trace w) ++ [stored w'])
  \/ (last (w_trace w') = Some (Print NothingNew) /\
      w_file w' = w_file w /\
      writes (w_trace w') = writes (w_trace w)).
Proof.
  destruct (w_file w) as [[data|]|] eqn:F.
  2: { rewrite main_malformed by exact F. discriminate. }
  all: rewrite (main_after_load limit w (stored w))
         by (apply load_not_malformed; congruence).
  all: cbn zeta; destruct (respond (w_requests w) HABR_URL) as [main_html|];
    [destruct (fromstring main_html) as [tree|]|]; try discriminate.
  all: match goal with |- context [loop_events _ _ ?k ?urls ?arts] =>
         destruct (loop_events_projections urls arts k) as (_ & W & _ & _)
       end.
  all: match goal with |- context [built_from ?r ?b ?k ?l] =>
         destruct (built_from r b k l) as [|x xs]
       end.
  all: unfold save_result, save_file, save_events.
  all: try match goal with |- context [saveable ?d] =>
             destruct (saveable d) eqn:S
           end; try discriminate.
  all: intros [= <-]; cbn [w_trace w_file].
  all: rewrite !writes_app, W; cbn [writes omap list_omap app].
  all: rewrite ?app_nil_r.
  1,3: right; split;
    [rewrite !app_assoc; apply last_snoc | split; [exact F | reflexivity]].
  all: left; exists (length (x :: xs)); split; [cbn; lia|].
  all: split;
    [change [Write ?d; Print ?m] with ([Write d] ++ [Print m]);
     rewrite !app_assoc; apply last_snoc|].
  all: unfold stored at 1 4; cbn [w_file]; split;
    [now rewrite length_app | reflexivity].
Qed.

(** The URLs of the records built are among the URLs of the candidates
    fetched, in the same order. *)
Lemma built_urls_sublist (to_fetch : list ArticleStub) :
  forall k,
    List.map rec_url (built_from respond BeautifulSoup k to_fetch)
    `sublist_of` List.map url to_fetch.
Proof.
  induction to_fetch as [|art rest IH]; intros k; [constructor|].
  cbn [built_from List.map]. unfold build.
  destruct (respond k (url art)) as [article_html|];
    [destruct (BeautifulSoup article_html) as [soup|]|];
    cbn [List.map rec_url];
    [apply sublist_skip | apply sublist_cons | apply sublist_cons]; apply IH.
Qed.

Lemma map_filter_sublist {A B} (f : A -> B) (p : A -> bool) (l : list A) :
  List.map f (List.filter p l) `sublist_of` List.map f l.
Proof.
  induction l as [|a l IH]; [constructor|]. cbn [List.filter List.map].
  destruct (p a); cbn [List.map];
    [now apply sublist_skip | now apply sublist_cons].
Qed.

Lemma map_sublist {A B} (f : A -> B) (l k : list A) :
  l `sublist_of` k -> List.map f l `sublist_of` List.map f k.
Proof.
  induction 1; cbn [List.map];
    [constructor | now apply sublist_skip | now apply sublist_cons].
Qed.

Lemma slice_to_sublist {A} (l : list A) (n : Z) : slice_to l n `sublist_of` l.
Proof. unfold slice_to. destruct (n <? 0); apply sublist_take. Qed.

(** X8. A run keeps the URLs of the store distinct when the listing has no
    URL twice: if no two records of the store share a URL before the run
    and no two stubs of the listing do, no two records share one after. *)
Theorem store_urls_stay_distinct (limit : Z) (w : world) :
  NoDup (List.map rec_url (stored w)) ->
  (forall main_html tree,
     respond (w_requests w) HABR_URL = Some main_html ->
     fromstring main_html = Some tree ->
     NoDup (List.map url (Extract.parse_listing tree))) ->
  NoDup (List.map rec_url
           (stored (snd (main respond fromstring BeautifulSoup limit w)))).
Proof.
  intros Hstore Hlisting.
  destruct (w_file w) as [[data|]|] eqn:F.
  2: { rewrite main_malformed by exact F. exact Hstore. }
  all: rewrite (main_after_load limit w (stored w))
         by (apply load_not_malformed; congruence).
  all: cbn zeta; destruct (respond (w_requests w) HABR_URL) as [main_html|];
    [destruct (fromstring main_html) as [tree|] eqn:P|];
    try (unfold stored in *; cbn [snd w_file]; rewrite F in *; exact Hstore).
  all: specialize (Hlisting main_html tree eq_refl P).
  all: cbn [snd].
  all: pose proof (built_urls_sublist
         (List.filter (fun art => negb (is_known (known_urls (stored w)) art))
            (slice_to (Extract.parse_listing tree) limit))
         (S (w_requests w))) as Hsub.
  all: destruct (built_from respond BeautifulSoup (S (w_requests w))
         (List.filter (fun art => negb (is_known (known_urls (stored w)) art))
            (slice_to (Extract.parse_listing tree) limit))) as [|x xs] eqn:B;
    unfold save_file;
    [unfold stored in *; cbn [w_file]; rewrite F in *; exact Hstore|].
  all: destruct (saveable (stored w ++ x :: xs));
    [|unfold stored at 1; cbn [w_file List.map]; constructor].
  all: unfold stored at 1; cbn [w_file]; rewrite List.map_app.
  all: apply NoDup_app; split; [exact Hstore|]; split.
  2,4: eapply sublist_NoDup; [|exact Hsub];
    eapply sublist_NoDup; [|apply map_filter_sublist];
    eapply sublist_NoDup; [|apply map_sublist, slice_to_sublist];
    exact Hlisting.
  all: intros u Hu Hin.
  all: eapply elem_of_sublist in Hin; [|exact Hsub].
  all: apply list_elem_of_In, in_map_iff in Hin as (art & <- & Hart).
  all: apply filter_In in Hart as (_ & Hnew).
  all: apply list_elem_of_In in Hu.
  all: apply (is_known_iff (stored w) art) in Hu.
  all: now rewrite Hu in Hnew.
Qed.

(** X9. The script reads its first argument and no other: what follows
    the first argument changes nothing. When the first argument is not an
    integer the script ends with [ValueError] before anything is done: the
    store is not read, no request is sent, nothing is printed. *)
Theorem bad_limit_aborts_first (prog arg : pstr) (rest : list pstr)
    (w : world) :
  script respond fromstring BeautifulSoup int (prog :: arg :: rest)
  = script respond fromstring BeautifulSoup int [prog; arg] /\
  (int arg = None ->
   script respond fromstring BeautifulSoup int (prog :: arg :: rest) w
   = (Raise ValueError, w)).
Proof.
  split; [reflexivity|].
  intros H. unfold script, cli_limit, lift, mbind, M_bind. now rewrite H.
Qed.

(** When no candidate fails, the records built carry the URLs of the
    candidates fetched, one for one. *)
Lemma built_urls_when_none_failed (to_fetch : list ArticleStub) :
  forall k,
    failed_from respond BeautifulSoup k to_fetch = [] ->
    List.map rec_url (built_from respond BeautifulSoup k to_fetch)
    = List.map url to_fetch.
Proof.
  induction to_fetch as [|art rest IH]; intros k; [reflexivity|].
  cbn [built_from failed_from List.map]. unfold build.
  destruct (respond k (url art)) as [article_html|];
    [destruct (BeautifulSoup article_html) as [soup|]|];
    try discriminate.
  intros H. cbn [List.map rec_url]. f_equal. now apply IH.
Qed.

End Runs.

(** ** Two runs in a row *)

Section Rerun.

Variable respond respond' : nat -> pstr -> option pstr.
Variable fromstring : pstr -> option node.
Variable BeautifulSoup : pstr -> option node.

(** X10. After a run that finished without any failure notice, a second run
    that is served the same listing page requests the listing and nothing
    else, and leaves the store file as the first run left it, whatever the
    network would answer for the articles. *)
Theorem second_run_fetches_nothing (limit : Z)
    (file : option file_content) (w1 : world) :
  main respond fromstring BeautifulSoup limit (start file) = (Ok tt, w1) ->
  failures (w_trace w1) = [] ->
  respond' 0%nat HABR_URL = respond 0%nat HABR_URL ->
  exists w2,
    main respond' fromstring BeautifulSoup limit (start (w_file w1))
    = (Ok tt, w2) /\
    gets (w_trace w2) = [HABR_URL] /\
    w_file w2 = w_file w1 /\
    writes (w_trace w2) = [].
Proof.
  intros H1 Hquiet Hsame.
  assert (Hfile : w_file (start file) <> Some Malformed).
  { intros F. rewrite main_malformed in H1 by exact F. discriminate. }
  rewrite (main_after_load respond fromstring BeautifulSoup limit
             (start file) (stored (start file)))
    in H1 by (now apply load_not_malformed).
  cbn zeta in H1. cbn [start w_requests w_trace w_file app] in H1.
  destruct (respond 0%nat HABR_URL) as [main_html|] eqn:R; [|discriminate].
  destruct (fromstring main_html) as [tree|] eqn:P; [|discriminate].
  set (existing := stored (start file)) in *.
  set (candidates := slice_to (Extract.parse_listing tree) limit) in *.
  set (to_fetch :=
         List.filter (fun art => negb (is_known (known_urls existing) art))
                     candidates) in *.
  set (built := built_from respond BeautifulSoup 1 to_fetch) in *.
  injection H1 as Hres <-.
  (* no failure: every candidate fetched was built *)
  cbn [w_trace] in Hquiet.
  change (Get HABR_URL :: ?l) with ([Get HABR_URL] ++ l) in Hquiet.
  rewrite !failures_app in Hquiet.
  destruct (loop_events_projections respond BeautifulSoup
              (known_urls existing) candidates 1) as (_ & _ & _ & F).
  destruct (save_events_projections existing built) as (_ & _ & F2).
  fold to_fetch in F. rewrite F, F2, app_nil_r in Hquiet.
  cbn [failures omap list_omap app] in Hquiet.
  apply map_eq_nil in Hquiet.
  pose proof (built_urls_when_none_failed respond BeautifulSoup to_fetch 1
                Hquiet) as Hurls.
  fold built in Hurls.
  (* the store after the first run *)
  cbn [w_file].
  set (file1 := save_file file existing built) in *.
  assert (Hstored : stored (start file1) = existing ++ built).
  { unfold file1, save_file. unfold save_result in Hres.
    destruct built as [|x xs]; [now rewrite app_nil_r|].
    destruct (saveable (existing ++ x :: xs)); [reflexivity | discriminate]. }
  assert (Hfile1 : w_file (start file1) <> Some Malformed).
  { unfold file1, save_file. unfold save_result in Hres.
    destruct built as [|x xs]; [exact Hfile|].
    destruct (saveable (existing ++ x :: xs)); discriminate. }
  assert (Hknown : Forall (fun art =>
                     is_known (known_urls (stored (start file1))) art = true)
                     candidates).
  { apply List.Forall_forall. intros art Hart. rewrite Hstored.
    apply is_known_iff. rewrite List.map_app. apply in_or_app.
    destruct (is_known (known_urls existing) art) eqn:K.
    - left. now apply is_known_iff.
    - right. rewrite Hurls. apply in_map. apply filter_In.
      split; [exact Hart | now rewrite K]. }
  rewrite (main_after_load respond' fromstring BeautifulSoup limit
             (start file1) (stored (start file1)))
    by (now apply load_not_malformed).
  cbn zeta. cbn [start w_requests w_trace w_file app].
  rewrite Hsame, P.
  fold candidates.
  rewrite (nothing_to_fetch_all_known _ _ Hknown).
  cbn [built_from length Nat.add save_events save_result save_file].
  eexists. split; [reflexivity|]. cbn [w_trace w_file].
  destruct (loop_events_projections respond' BeautifulSoup
              (known_urls (stored (start file1))) candidates 1)
    as (G & W & _ & _).
  rewrite (nothing_to_fetch_all_known _ _ Hknown) in G.
  change (Get HABR_URL :: ?l) with ([Get HABR_URL] ++ l).
  rewrite !gets_app, !writes_app, G, W.
  repeat split.
Qed.

End Rerun.

(** ** More on the extractors *)

Section Pages.

(** Induction on a page: a property of the children gives the property of
    the element. *)
Lemma node_children_ind (P : node -> Prop) :
  (forall s, P (Text s)) ->
  (forall s, P (Comment s)) ->
  (forall tag attrs children,
     Forall P children -> P (Element tag attrs children)) ->
  forall n, P n.
Proof.
  intros HT HC HE. fix IH 1. intros [s|s|tag attrs children].
  - apply HT.
  - apply HC.
  - apply HE. induction children as [|c cs IHcs]; constructor.
    + apply IH.
    + exact IHcs.
Qed.

Lemma flat_map_sublist {A B} (f g : A -> list B) (l : list A) :
  Forall (fun x => f x `sublist_of` g x) l ->
  List.flat_map f l `sublist_of` List.flat_map g l.
Proof.
  induction 1 as [|x l Hx _ IH]; cbn [List.flat_map];
    [constructor | now apply sublist_app].
Qed.

Lemma filter_flat_map {A B} (p : B -> bool) (f : A -> list B) (l : list A) :
  List.filter p (List.flat_map f l)
  = List.flat_map (fun x => List.filter p (f x)) l.
Proof.
  induction l as [|x l IH]; [reflexivity|].
  cbn [List.flat_map]. now rewrite List.filter_app, IH.
Qed.

Lemma walk_sublist (n : node) :
  forall in_article under_h2,
    Lxml.walk in_article under_h2 n
    `sublist_of` List.filter is_anchor (Dom.subtree n).
Proof.
  induction n as [s|s|tag attrs children IH] using node_children_ind;
    intros in_article under_h2; [constructor | constructor |].
  cbn [Lxml.walk Dom.subtree List.filter].
  unfold is_anchor at 1. cbn [Dom.is_element Dom.tag_of andb].
  rewrite filter_flat_map.
  assert (Hc : List.flat_map
                 (Lxml.walk (in_article || PyStr.eqb tag (str "article"))
                            (in_article && PyStr.eqb tag (str "h2")))
                 children
               `sublist_of`
               List.flat_map
                 (fun x => List.filter is_anchor (Dom.subtree x)) children).
  { apply flat_map_sublist. eapply Forall_impl; [exact IH|].
    intros c Hc. apply Hc. }
  destruct (PyStr.eqb tag (str "a")); rewrite ?andb_false_r;
    [|exact Hc].
  destruct under_h2; cbn [andb app];
    [now apply sublist_skip | now apply sublist_cons].
Qed.

(** X11. The anchors the listing path selects are [a] elements of the page,
    in document order, none of them twice: they form a subsequence of the
    [a] elements of the page as document order lists them. *)
Theorem xpath_in_document_order (root : node) :
  Lxml.xpath_article_h2_a root
  `sublist_of` List.filter is_anchor (Dom.subtree root).
Proof. apply walk_sublist. Qed.

Lemma walk_outside_article (n : node) :
  Forall (fun d => is_article d = false) (Dom.subtree n) ->
  Lxml.walk false false n = [].
Proof.
  induction n as [s|s|tag attrs children IH] using node_children_ind;
    intros H; [reflexivity | reflexivity |].
  cbn [Lxml.walk Dom.subtree] in *.
  apply Forall_cons_1 in H as [Hn Hcs].
  unfold is_article in Hn. cbn [Dom.is_element Dom.tag_of andb] in Hn.
  rewrite Hn. cbn [andb orb app].
  induction children as [|c cs IHcs]; [reflexivity|].
  cbn [List.flat_map] in *.
  apply Forall_app in Hcs as [Hc Hcs].
  apply Forall_cons_1 in IH as [IHc IH].
  rewrite (IHc Hc). now apply IHcs.
Qed.

(** X12. A listing page without any [article] element gives no stub, even
    when it has links under headings. *)
Theorem no_article_no_stub (tree : node) :
  Forall (fun d => is_article d = false) (Dom.subtree tree) ->
  Extract.parse_listing tree = [].
Proof.
  intros H. unfold Extract.parse_listing, Lxml.xpath_article_h2_a.
  now rewrite walk_outside_article.
Qed.

Lemma Forall2_right {A B} (R : A -> B -> Prop) (l : list A) (k : list B) :
  Forall2 R l k -> Forall (fun b => exists a, R a b) k.
Proof. induction 1; constructor; eauto. Qed.

(** X13. Every stub of the listing has a title without whitespace at either
    end and a URL that does not begin with [/]: no site-relative link is
    ever emitted. *)
Theorem listing_stubs_normalized (tree : node) :
  Forall (fun s => strip (title s) = title s
                   /\ startswith (str "/") (url s) = false)
         (Extract.parse_listing tree).
Proof.
  unfold Extract.parse_listing.
  destruct (listing_fold (Lxml.xpath_article_h2_a tree) [])
    as (out & -> & HF & _).
  cbn [app]. apply Forall2_right in HF.
  eapply Forall_impl; [exact HF|].
  intros s (a & href & _ & Ht & Hrel & Habs). split.
  - rewrite Ht. apply strip_strip.
  - destruct (startswith (str "/") href) eqn:E.
    + rewrite (Hrel eq_refl). reflexivity.
    + now rewrite (Habs eq_refl).
Qed.

End Pages.

(** ** The shape of the extracted fields *)

Section Fields.

Lemma last_app_nonempty {A} (a b : list A) (d : A) :
  b <> [] -> List.last (a ++ b) d = List.last b d.
Proof.
  intros Hb. induction a as [|x a IH]; [reflexivity|].
  cbn [app]. rewrite <- IH.
  destruct (a ++ b) eqn:E; [|reflexivity].
  apply app_eq_nil in E as [_ E]. contradiction.
Qed.

Lemma last_default {A} (l : list A) (d d' : A) :
  l <> [] -> List.last l d = List.last l d'.
Proof.
  induction l as [|x l IH]; [contradiction|]. intros _.
  destruct l as [|y l]; [reflexivity|].
  cbn [List.last]. apply IH. discriminate.
Qed.

(** A trimmed string has no whitespace at either end. *)
Lemma tight_strip (s : pstr) : tight (strip s).
Proof.
  unfold strip.
  pose proof (lstrip_head s) as H.
  destruct (lstrip s) as [|c t]; [exact I|].
  rewrite rstrip_cons by exact H. split; [exact H|].
  unfold rstrip.
  pose proof (lstrip_head (rev t)) as Hu.
  destruct (lstrip (rev t)) as [|d u]; [exact H|].
  cbn [rev].
  change (c :: rev u ++ [d]) with ((c :: rev u) ++ [d]).
  rewrite last_app_nonempty by discriminate. exact Hu.
Qed.

(** A string without whitespace at either end is left alone by trimming. *)
Lemma strip_tight (s : pstr) : tight s -> strip s = s.
Proof.
  destruct s as [|c t]; [reflexivity|]. intros [Hc Hl].
  unfold strip. rewrite lstrip_fixed by exact Hc.
  unfold rstrip.
  rewrite (app_removelast_last c (l := c :: t)) at 1 by discriminate.
  rewrite rev_unit, lstrip_fixed by exact Hl.
  rewrite <- rev_unit, rev_involutive.
  symmetry. apply app_removelast_last. discriminate.
Qed.

(** Gluing two such strings, with anything in between, gives another. *)
Lemma tight_sandwich (a m b : pstr) :
  a <> [] -> b <> [] -> tight a -> tight b -> tight (a ++ m ++ b).
Proof.
  intros Ha Hb Ta Tb.
  destruct a as [|c a]; [contradiction|]. destruct Ta as [Hc _].
  destruct b as [|d b]; [contradiction|]. destruct Tb as [_ Hd].
  cbn [app tight]. split; [exact Hc|].
  rewrite app_assoc, app_comm_cons.
  rewrite last_app_nonempty by discriminate.
  now rewrite (last_default (d :: b) c d).
Qed.

Lemma tight_concat (l : list pstr) :
  Forall (fun x => x <> [] /\ tight x) l -> tight (List.concat l).
Proof.
  induction 1 as [|x l [Hx Tx] _ IH]; [exact I|].
  cbn [List.concat].
  destruct (List.concat l) as [|c r] eqn:E; [now rewrite app_nil_r|].
  apply (tight_sandwich x [] (c :: r)); [exact Hx | discriminate | exact Tx | exact IH].
Qed.

Lemma join_nonempty (sep : pstr) (l : list pstr) :
  l <> [] -> Forall (fun x => x <> []) l -> join sep l <> [].
Proof.
  intros Hl H. destruct H as [|x l Hx H]; [contradiction|].
  cbn [join]. destruct l; [exact Hx|].
  destruct x; [contradiction | discriminate].
Qed.

Lemma tight_join (sep : pstr) (l : list pstr) :
  Forall (fun x => x <> [] /\ tight x) l -> tight (join sep l).
Proof.
  induction 1 as [|x l [Hx Tx] Hl IH]; [exact I|].
  cbn [join]. destruct l as [|y l]; [exact Tx|].
  apply tight_sandwich; [exact Hx | | exact Tx | exact IH].
  apply join_nonempty; [discriminate|].
  eapply Forall_impl; [exact Hl|]. now intros z [Hz _].
Qed.

Lemma filter_truthy_nonempty (f : node -> pstr) (l : list node) :
  (forall e, tight (f e)) ->
  Forall (fun x => x <> [] /\ tight x) (List.filter truthy (List.map f l)).
Proof.
  intros Hf. induction l as [|e l IH]; [constructor|].
  cbn [List.map List.filter].
  destruct (truthy (f e)) eqn:E; [|exact IH].
  constructor; [|exact IH]. split; [now apply truthy_true_iff | apply Hf].
Qed.

(** What [get_text(strip=True)] gives has no whitespace at either end. *)
Lemma tight_get_text_strip (t : node) : tight (Soup.get_text_strip t).
Proof.
  unfold Soup.get_text_strip. apply tight_concat.
  induction (Dom.strings t) as [|x l IH]; [constructor|].
  cbn [List.map List.filter].
  destruct (truthy (strip x)) eqn:E; [|exact IH].
  constructor; [|exact IH].
  split; [now apply truthy_true_iff | apply tight_strip].
Qed.

(** X14. The three fields of an article never begin or end with whitespace:
    trimming the text, the likes or the comments changes nothing. *)
Theorem extracted_fields_are_trimmed (soup : node) :
  strip (text (Extract.article_data soup)) = text (Extract.article_data soup)
  /\ strip (likes (Extract.article_data soup))
     = likes (Extract.article_data soup)
  /\ strip (comments (Extract.article_data soup))
     = comments (Extract.article_data soup).
Proof.
  assert (Hc : forall c, tight (counter_of c (Extract.article_data soup))).
  { intros c. rewrite counter_of_article.
    destruct (Soup.py_or (Soup.select_one (primary c) soup)
                         (Soup.select_one (fallback c) soup)) as [t|];
      cbn [Extract.counter_text Soup.tag_truthy];
      [apply tight_get_text_strip | split; reflexivity]. }
  split; [|split].
  - apply strip_tight. unfold Extract.article_data. cbn [text].
    rewrite body_fold. cbn [app]. apply tight_join.
    apply filter_truthy_nonempty, tight_get_text_strip.
  - apply strip_tight, (Hc Likes).
  - apply strip_tight, (Hc Comments).
Qed.

Lemma get_text_strip_nil_iff (t : node) :
  Soup.get_text_strip t = [] <-> strip (whole_text t) = [].
Proof.
  split; [|apply get_text_strip_blank].
  unfold Soup.get_text_strip, whole_text. rewrite strip_nil_iff.
  induction (Dom.strings t) as [|x l IH]; [reflexivity|].
  cbn [List.map List.filter List.concat].
  rewrite forallb_app.
  destruct (strip x) as [|c r] eqn:E; cbn [truthy].
  - intros H. apply strip_nil_iff in E. rewrite E. now apply IH.
  - discriminate.
Qed.

(** X15. The text of an article is empty exactly when every [p] and [li]
    below the body containers is blank; with no body container at all it is
    empty. *)
Theorem text_empty_iff_blank (soup : node) :
  text (Extract.article_data soup) = []
  <-> Forall (fun e => strip (whole_text e) = [])
        (List.flat_map (Soup.find_all [str "p"; str "li"])
           (Soup.select Extract.BODY soup)).
Proof.
  unfold Extract.article_data. cbn [text]. rewrite body_fold. cbn [app].
  induction (List.flat_map (Soup.find_all [str "p"; str "li"])
               (Soup.select Extract.BODY soup)) as [|e es IH].
  - split; [constructor | reflexivity].
  - cbn [List.map List.filter].
    destruct (Soup.get_text_strip e) as [|c r] eqn:E; cbn [truthy].
    + rewrite IH. apply get_text_strip_nil_iff in E.
      split; [now constructor | now inversion 1].
    + split.
      * intros H. exfalso. revert H.
        apply (join_nonempty NEWLINE); [discriminate|].
        constructor; [discriminate|].
        pose proof (filter_truthy_nonempty Soup.get_text_strip es
                      tight_get_text_strip) as Hn.
        eapply Forall_impl; [exact Hn|]. now intros z [Hz _].
      * inversion 1 as [|? ? He _]; subst.
        apply get_text_strip_nil_iff in He. congruence.
Qed.

(** [l[:n]] is always a prefix of [l]; its length is [n] cut to the length
    of [l] when [n] is not negative, and the length of [l] less [-n], or
    nothing, when it is. *)
Lemma slice_to_bounds {A} (l : list A) (n : Z) :
  slice_to l n `prefix_of` l /\
  Z.of_nat (length (slice_to l n))
  = if n <? 0
    then Z.max 0 (Z.of_nat (length l) + n)
    else Z.min n (Z.of_nat (length l)).
Proof.
  unfold slice_to. split.
  - destruct (n <? 0); apply prefix_take.
  - destruct (n <? 0) eqn:E; rewrite length_take; lia.
Qed.

End Fields.

(** ** A negative limit *)

Section NegativeLimit.

Variable respond : nat -> pstr -> option pstr.
Variable fromstring : pstr -> option node.
Variable BeautifulSoup : pstr -> option node.

(** X16. With a negative limit [N] the driver does not take up nothing: it
    takes up all the stubs of the listing but the last [-N], in listing
    order (none when the listing has no more than [-N] stubs). *)
Theorem negative_limit_drops_last_stubs (N : Z)
    (file : option file_content) (main_html : pstr) (tree : node) :
  N < 0 ->
  file <> Some Malformed ->
  respond 0%nat HABR_URL = Some main_html ->
  fromstring main_html = Some tree ->
  considered
    (w_trace (snd (main respond fromstring BeautifulSoup N (start file))))
  = List.map title
      (firstn (length (Extract.parse_listing tree) - Z.to_nat (- N))
              (Extract.parse_listing tree)).
Proof.
  intros HN Hfile Hget Hparse.
  assert (Hload : load_existing_data (start file)
                  = (Ok (stored (start file)), start file))
    by (now apply load_not_malformed).
  destruct (main_collect_spec respond fromstring BeautifulSoup N
              (start file) _ main_html tree Hload Hget Hparse)
    as (w1 & tr & E & (_ & _ & T1) & _ & _ & C).
  match type of E with _ = (Ok (?ex, ?built), _) =>
    destruct (main_save_spec ex built w1) as (r & w2 & E2 & _ & _ & C2 & _)
  end.
  unfold main. rewrite (bind_ok _ _ _ _ _ E). rewrite E2. cbn [snd].
  rewrite C2, T1. cbn [start w_trace app]. rewrite C.
  now rewrite slice_to_negative.
Qed.

End NegativeLimit.

(** ** More sample runs *)

Section MoreSamples.

Local Open Scope string_scope.

Lemma listing_failure_is_fatal_witness :
  main Outage.respond_down Sample.fromstring Sample.BeautifulSoup 5
    (start (Some (Json Sample.store_AB)))
  = (Raise RequestException,
     {| w_file := Some (Json Sample.store_AB); w_requests := 1;
        w_trace := [Get HABR_URL] |}).
Proof.
  refine (proj1 (listing_failure_is_fatal Outage.respond_down
                   Sample.fromstring Sample.BeautifulSoup 5
                   (start (Some (Json Sample.store_AB))) _ _ _ _)).
  - discriminate.
  - reflexivity.
Defined.

Lemma requests_bounded_by_limit_witness :
  (w_requests (snd (main Sample.respond Sample.fromstring
                      Sample.BeautifulSoup 2 (start None))) <= 3)%nat.
Proof.
  refine (requests_bounded_by_limit Sample.respond Sample.fromstring
            Sample.BeautifulSoup 2 (start None) _).
  lia.
Defined.

Lemma summary_counts_new_records_witness :
  let w' := snd (main Sample.respond Sample.fromstring Sample.BeautifulSoup 3
                   (start (Some (Json Sample.store_AB)))) in
  (exists n,
     (0 < n)%nat /\
     last (w_trace w') = Some (Print (Added n)) /\
     length (stored w') = (2 + n)%nat /\
     writes (w_trace w') = [stored w'])
  \/ (last (w_trace w') = Some (Print NothingNew) /\
      w_file w' = Some (Json Sample.store_AB) /\
      writes (w_trace w') = []).
Proof.
  refine (summary_counts_new_records Sample.respond Sample.fromstring
            Sample.BeautifulSoup 3 (start (Some (Json Sample.store_AB))) _ _).
  vm_compute. reflexivity.
Defined.

Lemma store_urls_stay_distinct_witness :
  NoDup (List.map rec_url
           (stored (snd (main Sample.respond Sample.fromstring
                           Sample.BeautifulSoup 3
                           (start (Some (Json Sample.store_AB))))))).
Proof.
  refine (store_urls_stay_distinct Sample.respond Sample.fromstring
            Sample.BeautifulSoup 3 (start (Some (Json Sample.store_AB))) _ _).
  - apply (bool_decide_unpack _). vm_compute. reflexivity.
  - intros main_html tree _. unfold Sample.fromstring.
    destruct (PyStr.eqb main_html (str "listing")); [|discriminate].
    intros [= <-]. apply (bool_decide_unpack _). vm_compute. reflexivity.
Defined.

Lemma bad_limit_aborts_first_witness :
  script Sample.respond Sample.fromstring Sample.BeautifulSoup Sample.int
    [str "main.py"; str "five"] (start None)
  = (Raise ValueError, start None).
Proof.
  refine (proj2 (bad_limit_aborts_first Sample.respond Sample.fromstring
                   Sample.BeautifulSoup Sample.int (str "main.py")
                   (str "five") [] (start None)) _).
  reflexivity.
Defined.

Lemma second_run_fetches_nothing_witness :
  exists w2,
    main Sample.respond_listing_only Sample.fromstring Sample.BeautifulSoup 5
      (start (w_file (snd (main Sample.respond Sample.fromstring
                             Sample.BeautifulSoup 5 (start None)))))
    = (Ok tt, w2) /\
    gets (w_trace w2) = [HABR_URL] /\
    w_file w2
    = w_file (snd (main Sample.respond Sample.fromstring
                     Sample.BeautifulSoup 5 (start None))) /\
    writes (w_trace w2) = [].
Proof.
  refine (second_run_fetches_nothing Sample.respond
            Sample.respond_listing_only Sample.fromstring
            Sample.BeautifulSoup 5 None
            (snd (main Sample.respond Sample.fromstring
                    Sample.BeautifulSoup 5 (start None))) _ _ _).
  - vm_compute. reflexivity.
  - vm_compute. reflexivity.
  - reflexivity.
Defined.

Lemma negative_limit_drops_last_stubs_witness :
  considered
    (w_trace (snd (main Sample.respond Sample.fromstring Sample.BeautifulSoup
                     (-2) (start None))))
  = [str "A"].
Proof.
  refine (negative_limit_drops_last_stubs Sample.respond Sample.fromstring
            Sample.BeautifulSoup (-2) None (str "listing") Sample.listing
            _ _ _ _).
  - lia.
  - discriminate.
  - reflexivity.
  - reflexivity.
Defined.

Lemma no_article_no_stub_witness :
  Extract.parse_listing Outage.plain_listing = [].
Proof.
  refine (no_article_no_stub Outage.plain_listing _).
  vm_compute. repeat constructor.
Defined.

(** A failure on C does not keep D out of the store, and the notice names
    C. *)
Example failure_on_C_sample :
  let w := snd (main Outage.respond_but_C Sample.fromstring
                  Sample.BeautifulSoup 3
                  (start (Some (Json Sample.store_AB)))) in
  List.map rec_url (stored w)
  = [Sample.url_A; Sample.url_B; Sample.url_D] /\
  failures (w_trace w) = [Sample.url_C].
Proof. vm_compute. split; reflexivity. Qed.

End MoreSamples.
